(** * Final.py: the three tool functions and the polling loop

    A shallow embedding of [src/Final.py]: the values the tools receive from
    the decoded JSON bodies and hand back as dictionaries, the exceptions
    the interpreter and the client libraries raise, the three tool functions
    [getWeatherDetails], [findTopRestaurants] and [getIconicDish], and the
    busy polling loop of the driver.

    Conventions of the model:
    - a Python expression evaluates to an [outcome]: a value, or a raised
      exception with its class and its text; only classes deriving from
      [Exception] are modelled (an interrupt of the process is not);
    - what a tool does to the outside is a list of [event]s; what the
      outside answers (the environment variables, the clock, the local
      zone, the two remote services) is an [env];
    - a string is a sequence of characters; [print] succeeds. *)

From Stdlib Require Import ZArith String Ascii List Lia SpecFloat.
From stdpp Require Import base option list gmap strings pretty.

Set Warnings "-register-all".

Local Open Scope string_scope.
Local Open Scope Z_scope.

(** ** Python values *)

(** What [json.loads] can produce (and what the tools build): [None],
    booleans, integers, binary64 floats, strings, lists and dictionaries
    with string keys.  A dictionary is a finite map: equality of two [PDict]
    is Python's [==] on dicts, which ignores insertion order. *)
Inductive pyval : Type :=
| PNone
| PBool (b : bool)
| PInt (z : Z)
| PFloat (f : spec_float)
| PStr (s : string)
| PList (l : list pyval)
| PDict (d : gmap string pyval).

(** [type(v).__name__], used in the interpreter's messages. *)
Definition type_name (v : pyval) : string :=
  match v with
  | PNone => "NoneType"
  | PBool _ => "bool"
  | PInt _ => "int"
  | PFloat _ => "float"
  | PStr _ => "str"
  | PList _ => "list"
  | PDict _ => "dict"
  end.

(** [bool(v)]: the truth value tested by [not v] and [if v]. *)
Definition truthy (v : pyval) : bool :=
  match v with
  | PNone => false
  | PBool b => b
  | PInt z => negb (z =? 0)
  | PFloat (S754_zero _) => false
  | PFloat _ => true
  | PStr s => negb (String.eqb s "")
  | PList l => match l with [] => false | _ => true end
  | PDict d => negb (bool_decide (d = ∅))
  end.

(** ** Exceptions *)

(** The classes that matter to the handlers of the tools.  Every class below
    derives from [Exception]; [HTTPError], [RequestsConnectionError] and
    [RequestsJSONDecodeError] are the [requests.exceptions] classes deriving
    from [RequestException]. *)
Inductive exn_class : Type :=
| RequestException
| RequestsConnectionError
| HTTPError
| RequestsJSONDecodeError
| KeyError
| IndexError
| TypeError
| AttributeError
| ValueError
| OverflowError
| OtherException.

(** An exception object: its class and [str(e)]. *)
Record exn : Type := Exn { exn_cls : exn_class; exn_str : string }.

(** [isinstance(e, requests.exceptions.RequestException)]. *)
Definition is_RequestException (e : exn) : bool :=
  match exn_cls e with
  | RequestException | RequestsConnectionError | HTTPError
  | RequestsJSONDecodeError => true
  | _ => false
  end.

(** [isinstance(e, KeyError)]. *)
Definition is_KeyError (e : exn) : bool :=
  match exn_cls e with KeyError => true | _ => false end.

(** The outcome of evaluating a piece of Python: a value or a raised
    exception. *)
Inductive outcome (A : Type) : Type :=
| Return (a : A)
| Raise (e : exn).
Arguments Return {A} a.
Arguments Raise {A} e.

Definition obind {A B} (m : outcome A) (k : A -> outcome B) : outcome B :=
  match m with
  | Return a => k a
  | Raise e => Raise e
  end.

Notation "'let*' x ':=' m 'in' k" := (obind m (fun x => k))
  (at level 10, x name, m at level 100, k at level 200).

(** [try: body except RequestException/KeyError/Exception] is written with
    [try_except]: the handler sees the exception, the value passes through. *)
Definition try_except {A} (body : outcome A) (handler : exn -> outcome A)
  : outcome A :=
  match body with
  | Return a => Return a
  | Raise e => handler e
  end.

(** ** Operations of the interpreter used by the tools *)

(** [repr(s)] of a key that holds no quote or escape, as all the keys
    subscripted in the source. *)
Definition repr_str (s : string) : string := "'" +:+ s +:+ "'".

(** [v[key]] with a string key. *)
Definition getitem_str (v : pyval) (key : string) : outcome pyval :=
  match v with
  | PDict d =>
      match d !! key with
      | Some x => Return x
      | None => Raise (Exn KeyError (repr_str key))
      end
  | PList _ =>
      Raise (Exn TypeError "list indices must be integers or slices, not str")
  | PStr _ =>
      Raise (Exn TypeError "string indices must be integers, not 'str'")
  | _ =>
      Raise (Exn TypeError
               ("'" +:+ type_name v +:+ "' object is not subscriptable"))
  end.

(** [v[0]]. A decoded JSON dictionary has string keys only, so [0] is
    missing from it. *)
Definition getitem_0 (v : pyval) : outcome pyval :=
  match v with
  | PList (x :: _) => Return x
  | PList [] => Raise (Exn IndexError "list index out of range")
  | PStr (String c _) => Return (PStr (String c ""))
  | PStr "" => Raise (Exn IndexError "string index out of range")
  | PDict _ => Raise (Exn KeyError "0")
  | _ =>
      Raise (Exn TypeError
               ("'" +:+ type_name v +:+ "' object is not subscriptable"))
  end.

(** [v.get(key, default)]: only dictionaries have the method. *)
Definition py_get (v : pyval) (key : string) (dflt : pyval)
  : outcome pyval :=
  match v with
  | PDict d => Return (default dflt (d !! key))
  | _ =>
      Raise (Exn AttributeError
               ("'" +:+ type_name v +:+ "' object has no attribute 'get'"))
  end.

(** Iteration of a [for] loop over [v]: a list yields its items, a string
    its characters, a dictionary its keys; nothing else is iterable. *)
Definition py_iter (v : pyval) : outcome (list pyval) :=
  match v with
  | PList l => Return l
  | PStr s => Return ((fun c => PStr (String c "")) <$> list_ascii_of_string s)
  | PDict d => Return ((fun kv => PStr kv.1) <$> map_to_list d)
  | _ =>
      Raise (Exn TypeError ("'" +:+ type_name v +:+ "' object is not iterable"))
  end.

(** The slice [v[:3]]. Slicing a dictionary looks the slice up as a key and
    fails ([TypeError] before Python 3.12, [KeyError] from 3.12 on; both are
    handled by the same clause of [findTopRestaurants]). *)
Definition slice_3 (v : pyval) : outcome pyval :=
  match v with
  | PList l => Return (PList (take 3 l))
  | PStr s => Return (PStr (string_of_list_ascii (take 3 (list_ascii_of_string s))))
  | PDict _ => Raise (Exn TypeError "unhashable type: 'slice'")
  | _ =>
      Raise (Exn TypeError
               ("'" +:+ type_name v +:+ "' object is not subscriptable"))
  end.

(** ** Numbers *)

(** The integer nearest to [m * 2^e], ties going to the even one. *)
Definition round_half_even (m e : Z) : Z :=
  if 0 <=? e then m * 2 ^ e
  else
    let d := 2 ^ (- e) in
    let q := m / d in
    let r := m mod d in
    match 2 * r ?= d with
    | Lt => q
    | Gt => q + 1
    | Eq => if Z.even q then q else q + 1
    end.

(** The builtin [round(v)] with one argument: an [int] for every number,
    by [float.__round__] (round half to even) on a float. *)
Definition py_round (v : pyval) : outcome Z :=
  match v with
  | PInt z => Return z
  | PBool b => Return (if b then 1 else 0)
  | PFloat (S754_zero _) => Return 0
  | PFloat (S754_finite s m e) => Return (round_half_even (cond_Zopp s (Zpos m)) e)
  | PFloat (S754_infinity _) =>
      Raise (Exn OverflowError "cannot convert float infinity to integer")
  | PFloat S754_nan =>
      Raise (Exn ValueError "cannot convert float NaN to integer")
  | _ =>
      Raise (Exn TypeError
               ("type " +:+ type_name v +:+ " doesn't define __round__ method"))
  end.

(** ** Naive local datetimes *)

(** A naive [datetime.datetime]: the microseconds of local wall-clock time
    since 1970-01-01T00:00:00.  Comparing two naive datetimes compares these
    counts, and [timedelta(hours = 24)] adds a fixed count. *)
Definition datetime := Z.

Definition us_per_second : Z := 1000000.
Definition us_per_hour : Z := 3600 * us_per_second.
Definition timedelta_24h : Z := 24 * us_per_hour.

(** 0001-01-01T00:00:00 and 9999-12-31T23:59:59.999999. *)
Definition datetime_min : datetime := -62135596800 * us_per_second.
Definition datetime_max : datetime := 253402300799 * us_per_second + 999999.

(** The attribute [.hour]. *)
Definition hour (t : datetime) : Z := (t / us_per_hour) mod 24.

(** [t + datetime.timedelta(hours = 24)]. *)
Definition add_24h (t : datetime) : outcome datetime :=
  if t + timedelta_24h <=? datetime_max then Return (t + timedelta_24h)
  else Raise (Exn OverflowError "date value out of range").

(** The seconds and microseconds of a float timestamp, as CPython splits
    them: [modf], the fraction times [1e6] in binary64, rounded half to
    even, with the carry into the seconds. *)
Definition float_timestamp (f : spec_float) : outcome (Z * Z) :=
  match f with
  | S754_nan => Raise (Exn ValueError "Invalid value NaN (not a number)")
  | S754_infinity _ =>
      Raise (Exn OverflowError "timestamp out of range for platform time_t")
  | S754_zero _ => Return (0, 0)
  | S754_finite s m e =>
      let v := cond_Zopp s (Zpos m) in
      if 0 <=? e then Return (v * 2 ^ e, 0)
      else
        let d := 2 ^ (- e) in
        let intpart := Z.quot v d in
        let floatpart :=
          match Z.rem (Zpos m) d with
          | Zpos r => S754_finite s r e
          | _ => S754_zero s
          end in
        let scaled := SFmul 53 1024 floatpart (S754_finite false 1000000 0) in
        let us :=
          match scaled with
          | S754_finite s' m' e' => round_half_even (cond_Zopp s' (Zpos m')) e'
          | _ => 0
          end in
        if us_per_second <=? us then Return (intpart + 1, us - us_per_second)
        else if us <? 0 then Return (intpart - 1, us + us_per_second)
        else Return (intpart, us)
  end.

(** The seconds and microseconds since the epoch that
    [datetime.fromtimestamp] reads from its argument. *)
Definition timestamp_parts (v : pyval) : outcome (Z * Z) :=
  match v with
  | PInt z => Return (z, 0)
  | PBool b => Return (if b then 1 else 0, 0)
  | PFloat f => float_timestamp f
  | _ =>
      Raise (Exn TypeError
               ("'" +:+ type_name v +:+ "' object cannot be interpreted as an integer"))
  end.

(** The civil year (proleptic Gregorian calendar, with a year 0) of a count
    of seconds of wall-clock time since 1970-01-01T00:00:00. *)
Definition year_of (seconds : Z) : Z :=
  let z := seconds / 86400 + 719468 in
  let era := z / 146097 in
  let doe := z mod 146097 in
  let yoe := (doe - doe / 1460 + doe / 36524 - doe / 146096) / 365 in
  let doy := doe - (365 * yoe + yoe / 4 - yoe / 100) in
  let mp := (5 * doy + 2) / 153 in
  yoe + era * 400 + (if mp <? 10 then 0 else 1).

(** A value held in a C [int]: it wraps around modulo [2^32]. *)
Definition int32 (z : Z) : Z := (z + 2 ^ 31) mod 2 ^ 32 - 2 ^ 31.

(** The local wall-clock seconds of the instant [t], as the datetime module
    gets them from the platform: [localtime] fails with [OSError] when the
    year, counted from 1900, does not fit the [int] field of a [struct tm]
    (POSIX, 64-bit [time_t]); the module then forms the year in an [int]
    and refuses one outside 1..9999, naming it.  [utcoffset] is the offset
    of the local zone, in seconds, at the instant.  [OSError] is recorded
    under [OtherException]. *)
Definition localtime (utcoffset : Z -> Z) (t : Z) : outcome Z :=
  let seconds := t + utcoffset t in
  if (-62135596800 <=? seconds) && (seconds <=? 253402300799) then
    Return seconds
  else
    let tm_year := year_of seconds - 1900 in
    if (- 2 ^ 31 <=? tm_year) && (tm_year <? 2 ^ 31) then
      Raise (Exn ValueError
               ("year " +:+ pretty (int32 (tm_year + 1900))
                +:+ " is out of range"))
    else
      Raise (Exn OtherException
               "[Errno 75] Value too large for defined data type").

(** The span the module looks back to detect a repeated hour. *)
Definition max_fold_seconds : Z := 24 * 3600.

(** [datetime.datetime.fromtimestamp(v)] (CPython 3.6 and later): the
    seconds must fit [time_t]; the local time of the instant is taken;
    then, to detect a repeated hour, the local time 24 hours earlier is
    taken too, and when the offset of the zone went down in between, the
    local time of the instant moved back by that much.  Each of these
    local times must have a year in 1..9999: a timestamp on the first day
    of year 1 is refused with the text [year 0 is out of range]. *)
Definition fromtimestamp (utcoffset : Z -> Z) (v : pyval) : outcome datetime :=
  let* p := timestamp_parts v in
  if (- 2 ^ 63 <=? p.1) && (p.1 <? 2 ^ 63) then
    let* result_seconds := localtime utcoffset p.1 in
    let* probe_seconds := localtime utcoffset (p.1 - max_fold_seconds) in
    let transition := result_seconds - probe_seconds - max_fold_seconds in
    let* _ := (if transition <? 0
               then localtime utcoffset (p.1 + transition)
               else Return 0) in
    Return (result_seconds * us_per_second + p.2)
  else
    Raise (Exn OverflowError "timestamp out of range for platform time_t").

(** ** The world around the tools *)

(** What a tool does to the outside, in order. *)
Inductive event : Type :=
| HttpGet (url : string)
| Print (text : string)
| PlacesSearch (query language : string).

(** The part of a [requests.Response] the weather tool reads: the status
    line, the final URL and what [response.json()] gives (the decoded body,
    or the exception of a body that is not JSON). *)
Record response : Type := Response {
  status_code : Z;
  reason : string;
  url : string;
  json : outcome pyval
}.

(** Everything a call depends on besides its arguments: the environment
    variables ([None] when unset), the clock and the local zone, and the
    answers of the two remote services. *)
Record env : Type := Env {
  OPENWEATHER_API_KEY : option string;
  MAPS_API_KEY : option string;
  now : datetime;
  utcoffset : Z -> Z;
  requests_get : string -> outcome response;
  gmaps_places : string -> string -> outcome pyval
}.

(** A computation that talks to the outside: the events it caused and how
    it ended. *)
Definition io (A : Type) : Type := (list event * outcome A)%type.

Definition io_bind {A B} (m : io A) (k : A -> io B) : io B :=
  match m.2 with
  | Return a => ((m.1 ++ (k a).1)%list, (k a).2)
  | Raise e => (m.1, Raise e)
  end.

Definition lift {A} (o : outcome A) : io A := ([], o).
Definition emit {A} (ev : event) (o : outcome A) : io A := ([ev], o).

Notation "'do*' x ':=' m 'in' k" := (io_bind m (fun x => k))
  (at level 10, x name, m at level 100, k at level 200).

(** [try: body except ...: return handler(e)] around an [io] body. *)
Definition io_try {A} (body : io A) (handler : exn -> outcome A) : io A :=
  (body.1, try_except body.2 handler).

(** [response.raise_for_status()]. *)
Definition raise_for_status (r : response) : outcome unit :=
  if (400 <=? status_code r) && (status_code r <? 500) then
    Raise (Exn HTTPError
             (pretty (status_code r) +:+ " Client Error: " +:+ reason r
              +:+ " for url: " +:+ url r))
  else if (500 <=? status_code r) && (status_code r <? 600) then
    Raise (Exn HTTPError
             (pretty (status_code r) +:+ " Server Error: " +:+ reason r
              +:+ " for url: " +:+ url r))
  else Return tt.

(** [googlemaps.Client(key = key)]: the constructor checks the key. *)
Definition googlemaps_Client (key : option string) : outcome string :=
  match key with
  | Some k =>
      if String.eqb k "" then
        Raise (Exn ValueError
                 "Must provide API key or enterprise credentials when creating client.")
      else if String.prefix "AIza" k then Return k
      else Raise (Exn ValueError "Invalid API key provided.")
  | None =>
      Raise (Exn ValueError
               "Must provide API key or enterprise credentials when creating client.")
  end.

(** ** getWeatherDetails *)

(** [s + v] where [s] is a [str] and [v] the value of an environment
    variable. *)
Definition str_add (s : string) (v : option string) : outcome string :=
  match v with
  | Some k => Return (s +:+ k)
  | None =>
      Raise (Exn TypeError
               ("can only concatenate str (not " +:+ String "034" "NoneType"
                +:+ String "034" ") to str"))
  end.

Definition baseUrl : string := "http://api.openweathermap.org/data/2.5/forecast?".

(** [v != '200']. *)
Definition ne_200 (v : pyval) : bool :=
  match v with
  | PStr s => negb (String.eqb s "200")
  | _ => true
  end.

(** The three variables the loop assigns. *)
Record slots : Type := Slots {
  todayMorningForecast : pyval;
  todayLunchForecast : pyval;
  todayEveningForecast : pyval
}.

(** The test of line 35, [now + timedelta] being evaluated only when the
    first comparison holds. *)
Definition within_24h (now forecastTime : datetime) : outcome bool :=
  if now <? forecastTime then
    let* limit := add_24h now in Return (forecastTime <? limit)
  else Return false.

(** Line 34: [datetime.datetime.fromtimestamp(forecast['dt'])]. *)
Definition forecast_time (offset : Z -> Z) (forecast : pyval)
  : outcome datetime :=
  let* dt := getitem_str forecast "dt" in
  fromtimestamp offset dt.

(** One turn of the loop of lines 33-41. *)
Definition loop_body (offset : Z -> Z) (now : datetime) (st : slots)
    (forecast : pyval) : outcome slots :=
  let* forecastTime := forecast_time offset forecast in
  let* inside := within_24h now forecastTime in
  if inside then
    let h := hour forecastTime in
    let st1 :=
      if (7 <=? h) && (h <? 12) && negb (truthy (todayMorningForecast st))
      then Slots forecast (todayLunchForecast st) (todayEveningForecast st)
      else st in
    let st2 :=
      if (12 <=? h) && (h <? 17) && negb (truthy (todayLunchForecast st1))
      then Slots (todayMorningForecast st1) forecast (todayEveningForecast st1)
      else st1 in
    let st3 :=
      if (18 <=? h) && (h <? 23) && negb (truthy (todayEveningForecast st2))
      then Slots (todayMorningForecast st2) (todayLunchForecast st2) forecast
      else st2 in
    Return st3
  else Return st.

Fixpoint forecast_loop (offset : Z -> Z) (now : datetime)
    (items : list pyval) (st : slots) : outcome slots :=
  match items with
  | [] => Return st
  | forecast :: rest =>
      let* st' := loop_body offset now st forecast in
      forecast_loop offset now rest st'
  end.

(** The dictionary stored in a slot (lines 49-52, 54-57, 59-62). *)
Definition slot_summary (forecast : pyval) : outcome pyval :=
  let* main := getitem_str forecast "main" in
  let* temp := getitem_str main "temp" in
  let* rounded := py_round temp in
  let* weather := getitem_str forecast "weather" in
  let* first := getitem_0 weather in
  let* description := getitem_str first "description" in
  Return (PDict {[ "temperatureInCelsius" := PInt rounded;
                   "condition" := description ]}).

(** [if chosen: result[key] = {...}]. *)
Definition fill_slot (key : string) (chosen : pyval)
    (result : gmap string pyval) : outcome (gmap string pyval) :=
  if truthy chosen then
    let* summary := slot_summary chosen in Return (<[key := summary]> result)
  else Return result.

(** Lines 25-63: from the decoded body to the returned dictionary. *)
Definition summarise (offset : Z -> Z) (now : datetime) (forecastData : pyval)
  : outcome pyval :=
  let* cod := py_get forecastData "cod" PNone in
  if ne_200 cod then Return (PDict ∅)
  else
    let* city := getitem_str forecastData "city" in
    let* cityName := getitem_str city "name" in
    let* forecasts := getitem_str forecastData "list" in
    let* items := py_iter forecasts in
    let* st := forecast_loop offset now items (Slots PNone PNone PNone) in
    let result : gmap string pyval :=
      {[ "city" := cityName; "morning" := PNone; "lunch" := PNone;
         "evening" := PNone ]} in
    let* result := fill_slot "morning" (todayMorningForecast st) result in
    let* result := fill_slot "lunch" (todayLunchForecast st) result in
    let* result := fill_slot "evening" (todayEveningForecast st) result in
    Return (PDict result).

Definition error_dict (message : string) : pyval :=
  PDict {[ "error" := PStr message ]}.

(** The three [except] clauses of lines 66-71, tried in order. *)
Definition weather_handler (e : exn) : outcome pyval :=
  if is_RequestException e then
    Return (error_dict ("Error connecting to Weather Service: " +:+ exn_str e))
  else if is_KeyError e then
    Return (error_dict
              ("Unexpected data format from weather service. Missing key: "
               +:+ exn_str e))
  else Return (error_dict ("Unexpected Error " +:+ exn_str e)).

(** The body of the [try] (lines 22-63). *)
Definition weather_try (E : env) (Url : string) : io pyval :=
  do* response := emit (HttpGet Url) (requests_get E Url) in
  lift (let* _ := raise_for_status response in
        let* forecastData := json response in
        summarise (utcoffset E) (now E) forecastData).

(** The URL is put together on line 19, before the [try] is entered. *)
Definition getWeatherDetails (E : env) (city : string) : io pyval :=
  do* Url := lift (let* with_key := str_add (baseUrl +:+ "appid=")
                                      (OPENWEATHER_API_KEY E) in
                   Return (with_key +:+ "&q=" +:+ city +:+ "&units=metric")) in
  io_try (weather_try E Url) weather_handler.

(** ** findTopRestaurants *)

(** The f-string of line 79. *)
Definition restaurant_query (city dishName : string) : string :=
  "Best authentic " +:+ dishName +:+ " restaurants in " +:+ city.

(** The dictionary appended for one place (lines 90-95). *)
Definition place_summary (place : pyval) : outcome pyval :=
  let* addressDict := py_get place "address" (PDict ∅) in
  let* name := py_get place "name" PNone in
  let* rating := py_get place "rating" (PStr "N/A") in
  let* address := py_get addressDict "formatted_address"
                    (PStr "Address Not Available") in
  Return (PDict {[ "name" := name; "rating" := rating; "address" := address ]}).

(** The loop of lines 89-95, appending to [restaurants]. *)
Fixpoint collect_places (items : list pyval) (restaurants : list pyval)
  : outcome (list pyval) :=
  match items with
  | [] => Return restaurants
  | place :: rest =>
      let* summary := place_summary place in
      collect_places rest (restaurants ++ [summary])%list
  end.

(** [not places or not places.get('results')]. *)
Definition no_results (places : pyval) : outcome bool :=
  if negb (truthy places) then Return true
  else let* results := py_get places "results" PNone in
       Return (negb (truthy results)).

(** Lines 84-97: from the answer of the search to the returned dictionary. *)
Definition top_three (city dishName : string) (places : pyval)
  : outcome pyval :=
  let* none := no_results places in
  if none then
    Return (error_dict ("No results found for '" +:+ dishName +:+ "' in " +:+ city))
  else
    let* results := getitem_str places "results" in
    let* first3 := slice_3 results in
    let* items := py_iter first3 in
    let* restaurants := collect_places items [] in
    Return (PDict {[ "restaurants" := PList restaurants ]}).

(** The single [except Exception] clause of lines 98-99. *)
Definition maps_handler (e : exn) : outcome pyval :=
  Return (error_dict
            ("An unexpected error occurred with Google Maps API: " +:+ exn_str e)).

(** The body of the [try] (lines 78-97). *)
Definition restaurants_try (E : env) (city dishName : string) : io pyval :=
  do* gmaps := lift (googlemaps_Client (MAPS_API_KEY E)) in
  let query := restaurant_query city dishName in
  do* _ := emit (Print ("---> Searching Google Maps for " +:+ query))
             (Return tt) in
  do* places := emit (PlacesSearch query "en") (gmaps_places E query "en") in
  lift (top_three city dishName places).

Definition findTopRestaurants (E : env) (city dishName : string) : io pyval :=
  io_try (restaurants_try E city dishName) maps_handler.

(** ** getIconicDish *)

Definition city_dishes : gmap string (gmap string string) :=
  {[ "Hyderabad" := {[ "breakfast" := "Pesarattu";
                       "lunch" := "Hyderabadi Biryani";
                       "dinner" := "Haleem" ]};
     "Mumbai" := {[ "breakfast" := "Vada Pav";
                    "lunch" := "Bombay Sandwich";
                    "dinner" := "Pav Bhaji" ]};
     "Delhi" := {[ "breakfast" := "Chole Bhature";
                   "lunch" := "Butter Chicken";
                   "dinner" := "Rajma Chawal" ]};
     "Chennai" := {[ "breakfast" := "Idli";
                     "lunch" := "Sambar Rice";
                     "dinner" := "Dosa" ]} ]}.

(** [city_dishes.get(city, {}).get(meal_time, f"Famous {meal_time} dish")]. *)
Definition getIconicDish (city meal_time : string) : string :=
  default ("Famous " +:+ meal_time +:+ " dish")
          (default ∅ (city_dishes !! city) !! meal_time).

(** ** The polling loop of the driver *)

(** [result.status in ["succeeded", "failed"]]. *)
Definition is_terminal (status : string) : bool :=
  bool_decide (status ∈ ["succeeded"; "failed"]).

(** Where the loop of lines 263-266 stands: still polling after a number of
    calls, left by [break] with the status of the last call, or left by the
    exception of a call (which the enclosing handler turns into [exit()]). *)
Inductive poll_state : Type :=
| Polling (calls : nat)
| Broke (calls : nat) (status : string)
| Failed (calls : nat) (e : exn).

(** [executions_get n] is what the [n]-th call of
    [client.executions.get(execution.id)] gives (counting from 0): the
    status of the execution it returns, or the exception it raises.  One
    turn of the loop is one call and one test; nothing else happens between
    two calls. *)
Definition poll_step (executions_get : nat -> outcome string)
    (s : poll_state) : poll_state :=
  match s with
  | Polling n =>
      match executions_get n with
      | Return status =>
          if is_terminal status then Broke (S n) status else Polling (S n)
      | Raise e => Failed (S n) e
      end
  | _ => s
  end.

(** The state after at most [turns] turns of the loop. *)
Fixpoint poll_loop (executions_get : nat -> outcome string)
    (turns : nat) (s : poll_state) : poll_state :=
  match turns with
  | O => s
  | S turns' => poll_loop executions_get turns' (poll_step executions_get s)
  end.

(** ** Vocabulary of the properties *)

(** The keys of the dish table: four cities, three meals. *)
Definition cities : list string := ["Hyderabad"; "Mumbai"; "Delhi"; "Chennai"].
Definition meals : list string := ["breakfast"; "lunch"; "dinner"].

(** The placeholder of [getIconicDish]. *)
Definition fallback_dish (meal_time : string) : string :=
  "Famous " +:+ meal_time +:+ " dish".

(** ASCII case folding, to speak of the casing variants of a key. *)
Definition ascii_lower (c : ascii) : ascii :=
  let n := nat_of_ascii c in
  if ((65 <=? n) && (n <=? 90))%nat then ascii_of_nat (n + 32) else c.

Fixpoint string_lower (s : string) : string :=
  match s with
  | EmptyString => EmptyString
  | String c rest => String (ascii_lower c) (string_lower rest)
  end.

(** [s] spells [key] with another casing: the same letters, not the same
    string. *)
Definition casing_variant (key s : string) : Prop :=
  s ≠ key ∧ string_lower s = string_lower key.

(** [needle] occurs in [text]. *)
Definition mentions (text needle : string) : Prop :=
  ∃ before after, text = before +:+ needle +:+ after.

(** The URL of line 19 once the key is known to be a string. *)
Definition weather_url (key city : string) : string :=
  ((baseUrl +:+ "appid=") +:+ key) +:+ "&q=" +:+ city +:+ "&units=metric".

(** A forecast time falls in a window: strictly after [now], strictly
    before [now] plus 24 hours, and at an hour of [lo, hi). *)
Definition in_window (now : datetime) (lo hi : Z) (t : datetime) : bool :=
  (now <? t) && (t <? now + timedelta_24h) && (lo <=? hour t) && (hour t <? hi).

(** The first entry, in list order, whose time falls in the window. *)
Definition first_in_window (now : datetime) (lo hi : Z)
    (timed : list (pyval * datetime)) : option pyval :=
  fst <$> List.find (λ ft, in_window now lo hi ft.2) timed.

(** [forecast['main']['temp']] and [forecast['weather'][0]['description']]. *)
Definition temperature_of (forecast : pyval) : outcome pyval :=
  let* main := getitem_str forecast "main" in getitem_str main "temp".

Definition condition_of (forecast : pyval) : outcome pyval :=
  let* weather := getitem_str forecast "weather" in
  let* first := getitem_0 weather in
  getitem_str first "description".

(** What a slot of the summary holds, given the entry chosen for its
    window: [None] without an entry, else the rounded temperature and the
    condition of that entry. *)
Definition slot_holds (chosen : option pyval) (value : pyval) : Prop :=
  match chosen with
  | None => value = PNone
  | Some forecast =>
      ∃ temp rounded condition,
        temperature_of forecast = Return temp ∧
        py_round temp = Return rounded ∧
        condition_of forecast = Return condition ∧
        value = PDict {[ "temperatureInCelsius" := PInt rounded;
                         "condition" := condition ]}
  end.

(** The four keys of a weather summary. *)
Definition weather_dict (cityName morning lunch evening : pyval)
  : gmap string pyval :=
  {[ "city" := cityName; "morning" := morning; "lunch" := lunch;
     "evening" := evening ]}.

(** A place as the search is expected to answer it: an object whose
    [address], when there is one, is an object too. *)
Definition place_object (place : pyval) : Prop :=
  ∃ p, place = PDict p ∧
       (p !! "address" = None ∨ ∃ a, p !! "address" = Some (PDict a)).

(** A place reduced to its name, its rating or [N/A], and its formatted
    address or the placeholder. *)
Definition reduced_place (place : pyval) : pyval :=
  match place with
  | PDict p =>
      PDict {[ "name" := default PNone (p !! "name");
               "rating" := default (PStr "N/A") (p !! "rating");
               "address" :=
                 match p !! "address" with
                 | Some (PDict a) =>
                     default (PStr "Address Not Available")
                             (a !! "formatted_address")
                 | _ => PStr "Address Not Available"
                 end ]}
  | _ => PNone
  end.

(** The first index at which the polled status is terminal. *)
Definition first_terminal (statuses : nat → string) (k : nat) : Prop :=
  (statuses k = "succeeded" ∨ statuses k = "failed") ∧
  ∀ j, (j < k)%nat → statuses j ≠ "succeeded" ∧ statuses j ≠ "failed".

(** The loop run for [turns] turns against a sequence of statuses. *)
Definition poll_statuses (statuses : nat → string) (turns : nat) : poll_state :=
  poll_loop (λ n, Return (statuses n)) turns (Polling 0).

(** What one turn does to a slot: it takes the entry when the entry falls
    in the window of the slot and the slot is still unset. *)
Definition slot_after (now : datetime) (lo hi : Z) (forecast : pyval)
    (t : datetime) (current : pyval) : pyval :=
  if in_window now lo hi t && negb (truthy current) then forecast else current.

(** The slot at the end of the loop, started from [current]. *)
Definition slot_final (now : datetime) (lo hi : Z)
    (timed : list (pyval * datetime)) (current : pyval) : pyval :=
  if truthy current then current
  else default current (first_in_window now lo hi timed).

(** The answer of the weather service for a city it does not know: status
    404 with a JSON body whose [cod] is the string 404. *)
Definition not_found_body : gmap string pyval :=
  {[ "cod" := PStr "404"; "message" := PStr "city not found" ]}.

Definition not_found_env : env :=
  Env (Some "0123") None 0 (λ _, 0)
      (λ u, Return (Response 404 "Not Found" u (Return (PDict not_found_body))))
      (λ _ _, Return (PDict ∅)).

(** [forecastData['list']] as the loop iterates it, and
    [forecastData['city']['name']]. *)
Definition forecast_entries (forecastData : pyval) : outcome (list pyval) :=
  let* forecasts := getitem_str forecastData "list" in py_iter forecasts.

Definition city_name (forecastData : pyval) : outcome pyval :=
  let* city := getitem_str forecastData "city" in getitem_str city "name".

(** [forecastData] is the decoded body of the response to the call: the key
    is set, the request returned, the status passed and the body decoded. *)
Definition decoded_body (E : env) (city : string) (forecastData : pyval)
  : Prop :=
  ∃ key r, OPENWEATHER_API_KEY E = Some key ∧
           requests_get E (weather_url key city) = Return r ∧
           raise_for_status r = Return tt ∧
           json r = Return forecastData.

(** The three slot keys with their windows. *)
Definition windows : list (string * (Z * Z)) :=
  [("morning", (7, 12)); ("lunch", (12, 17)); ("evening", (18, 23))].

(** *** A sample forecast *)

(** A forecast entry as the service sends it. *)
Definition entry (dt : Z) (temp : pyval) (description : string) : pyval :=
  PDict {[ "dt" := PInt dt;
           "main" := PDict {[ "temp" := temp ]};
           "weather" := PList [PDict {[ "description" := PStr description ]}] ]}.

(** 2024-01-01T00:00:00Z, and the zone UTC+05:30. *)
Definition midnight_utc : Z := 1704067200.
Definition ist (_ : Z) : Z := 19800.

(** Entries every three hours; local times 02:30 (past), 08:30, 11:30,
    14:30, 17:30, 23:30, and 08:30 of the next day (beyond 24 hours). *)
Definition sample_entries : list pyval :=
  [ entry (midnight_utc - 10800) (PInt 20) "mist";
    entry (midnight_utc + 10800) (PFloat (S754_finite false 53 (-1))) "clear sky";
    entry (midnight_utc + 21600) (PFloat (S754_finite false 61 (-1))) "haze";
    entry (midnight_utc + 32400) (PInt 31) "few clouds";
    entry (midnight_utc + 43200) (PInt 30) "scattered clouds";
    entry (midnight_utc + 64800) (PInt 24) "light rain";
    entry (midnight_utc + 97200) (PInt 25) "clear sky" ].

Definition sample_forecast : pyval :=
  PDict {[ "cod" := PStr "200";
           "city" := PDict {[ "name" := PStr "Chennai" ]};
           "list" := PList sample_entries ]}.

(** The clock reads 05:00:00.25 local time on 2024-01-01. *)
Definition sample_env : env :=
  Env (Some "0123") (Some "AIzaSyExample")
      ((midnight_utc + 18000) * us_per_second + 250000) ist
      (λ u, Return (Response 200 "OK" u (Return sample_forecast)))
      (λ _ _, Return (PDict {[ "results" := PList [] ]})).

Definition sample_summary : gmap string pyval :=
  {[ "city" := PStr "Chennai";
     "morning" := PDict {[ "temperatureInCelsius" := PInt 26;
                           "condition" := PStr "clear sky" ]};
     "lunch" := PDict {[ "temperatureInCelsius" := PInt 31;
                         "condition" := PStr "few clouds" ]};
     "evening" := PNone ]}.

(** *** A sample search answer: five places, fields missing here and there *)

Definition sample_places : list pyval :=
  [ PDict {[ "name" := PStr "Murugan Idli Shop"; "rating" := PInt 4;
             "address" := PDict {[ "formatted_address" := PStr "77 GN Chetty Rd" ]} ]};
    PDict {[ "name" := PStr "Ratna Cafe" ]};
    PDict {[ "rating" := PInt 5; "address" := PDict ∅ ]};
    PDict {[ "name" := PStr "Sangeetha" ]};
    PDict {[ "name" := PStr "Saravana Bhavan" ]} ].

Definition sample_maps_env : env :=
  Env None (Some "AIzaSyExample") 0 (λ _, 0)
      (λ _, Raise (Exn RequestsConnectionError "unreachable"))
      (λ _ _, Return (PDict {[ "results" := PList sample_places ]})).

Definition sample_restaurants : list pyval :=
  [ PDict {[ "name" := PStr "Murugan Idli Shop"; "rating" := PInt 4;
             "address" := PStr "77 GN Chetty Rd" ]};
    PDict {[ "name" := PStr "Ratna Cafe"; "rating" := PStr "N/A";
             "address" := PStr "Address Not Available" ]};
    PDict {[ "name" := PNone; "rating" := PInt 5;
             "address" := PStr "Address Not Available" ]} ].

(** ** Vocabulary of the further properties *)

(** The three key sets a weather result can have. *)
Definition weather_keys : gset string := {[ "city"; "morning"; "lunch"; "evening" ]}.

(** A temperature [round] accepts: an integer or a finite float. *)
Definition numeric (v : pyval) : Prop :=
  match v with
  | PInt _ | PBool _ | PFloat (S754_zero _) | PFloat (S754_finite _ _ _) => True
  | _ => False
  end.

(** A forecast entry with everything the tool reads: an integer [dt] from
    0001-01-04 to 9999-12-30 (UTC), a numeric [main.temp], and a
    [description] in the first element of [weather]. *)
Definition complete_entry (forecast : pyval) : Prop :=
  ∃ d dt main temp w rest description,
    forecast = PDict d ∧
    d !! "dt" = Some (PInt dt) ∧
    -62135596800 + 3 * 86400 ≤ dt ≤ 253402300799 - 86400 ∧
    d !! "main" = Some (PDict main) ∧ main !! "temp" = Some temp ∧
    numeric temp ∧
    d !! "weather" = Some (PList (PDict w :: rest)) ∧
    w !! "description" = Some description.

(** The offset of the zone stays within a day of UTC. *)
Definition offset_within_a_day (offset : Z → Z) : Prop :=
  ∀ t, -86400 ≤ offset t ≤ 86400.

(** A place the loop of [findTopRestaurants] cannot read: not an object, or
    an object whose [address] is present and is not an object. *)
Definition unreadable_place (place : pyval) : Prop :=
  match place with
  | PDict p =>
      match p !! "address" with
      | Some (PDict _) | None => False
      | Some _ => True
      end
  | _ => True
  end.

(** The text of the handler of [findTopRestaurants]. *)
Definition maps_error (text : string) : pyval :=
  error_dict ("An unexpected error occurred with Google Maps API: " +:+ text).

(** The dictionary returned when the search has nothing. *)
Definition no_results_error (city dishName : string) : pyval :=
  error_dict ("No results found for '" +:+ dishName +:+ "' in " +:+ city).

(** ** The driver (the script run as a program, lines 132-273) *)

(** The objects the agent platform answers with, by the attributes the
    script reads: [agent.id] and [str(agent)]; [tool.name]; [task.id] and
    [task.name]; [execution.id]; [result.status] and what [pprint] writes
    for the result. *)
Record agent : Type := Agent { agent_id : string; agent_str : string }.
Record tool : Type := Tool { tool_name : string }.
Record task : Type := Task { task_id : string; task_name : string }.
Record execution : Type := Execution { execution_id : string }.
Record execution_result : Type :=
  ExecutionResult { result_status : string; result_pformat : string }.

(** What [yaml.safe_load] gives for the four documents written in the
    script (three tool schemas and the task): mappings, handed on as
    keyword arguments.  The parsing is not modelled; the mappings are
    parameters of the driver. *)
Record documents : Type := Documents {
  weatherToolSchema : gmap string pyval;
  restaurantFinderToolSchema : gmap string pyval;
  iconicDishToolSchema : gmap string pyval;
  taskDefinition : gmap string pyval
}.

(** What the driver does to the outside, in order.  [Say args] is
    [print( *args )], an object among the arguments being recorded by its
    [str]; [PrettyPrint] is [pprint]. *)
Inductive action : Type :=
| Say (args : list pyval)
| PrettyPrint (text : string)
| NewClient (api_key : option string)
| AgentsCreate (name model about : string)
| ToolsCreate (agent_id : string) (kwargs : gmap string pyval)
| ToolsList (agent_id : string)
| TasksCreate (agent_id : string) (kwargs : gmap string pyval)
| Input (prompt : string)
| ExecutionsCreate (task_id : string) (input : pyval)
| ExecutionsGet (execution_id : string).

(** What the outside answers: the environment variable, the platform's
    client and its calls, and the line typed at the prompt.
    [executions_get id n] is the answer to the call number [n] (from 0)
    of [client.executions.get(id)]. *)
Record julep : Type := Julep {
  JULEP_API_KEY : option string;
  Client : option string → outcome unit;
  agents_create : string → string → string → outcome agent;
  tools_create : string → gmap string pyval → outcome tool;
  tools_list : string → outcome (list tool);
  tasks_create : string → gmap string pyval → outcome task;
  input : string → outcome string;
  executions_create : string → pyval → outcome execution;
  executions_get : string → nat → outcome execution_result
}.

(** A piece of the driver: the actions it caused and how it ended. *)
Definition run (A : Type) : Type := (list action * outcome A)%type.

Definition run_bind {A B} (m : run A) (k : A → run B) : run B :=
  match m.2 with
  | Return a => ((m.1 ++ (k a).1)%list, (k a).2)
  | Raise e => (m.1, Raise e)
  end.

Definition call {A} (a : action) (answer : outcome A) : run A := ([a], answer).
Definition say (args : list pyval) : run unit := ([Say args], Return tt).

Notation "'run*' x ':=' m 'in' k" := (run_bind m (fun x => k))
  (at level 10, x name, m at level 100, k at level 200).

(** The body of the first [try] (lines 183-250). *)
Definition setup (J : julep) (D : documents) : run task :=
  run* agent := call (AgentsCreate "AI Foodie Tour Agent" "gpt-4o"
                                   "Foodie Tour Generator Agent")
                     (agents_create J "AI Foodie Tour Agent" "gpt-4o"
                                    "Foodie Tour Generator Agent") in
  run* _ := say [PStr "---Agent Created---"] in
  run* weather_tool :=
    call (ToolsCreate (agent_id agent) (weatherToolSchema D))
         (tools_create J (agent_id agent) (weatherToolSchema D)) in
  run* _ := say [PStr ("Created tool: " +:+ tool_name weather_tool)] in
  run* restaurant_tool :=
    call (ToolsCreate (agent_id agent) (restaurantFinderToolSchema D))
         (tools_create J (agent_id agent) (restaurantFinderToolSchema D)) in
  run* _ := say [PStr ("Created tool: " +:+ tool_name restaurant_tool)] in
  run* iconic_dish_tool :=
    call (ToolsCreate (agent_id agent) (iconicDishToolSchema D))
         (tools_create J (agent_id agent) (iconicDishToolSchema D)) in
  run* _ := say [PStr ("Created tool: " +:+ tool_name iconic_dish_tool)] in
  run* tools := call (ToolsList (agent_id agent))
                     (tools_list J (agent_id agent)) in
  run* _ := say [PStr "Registered tools:";
                 PList ((λ t, PStr (tool_name t)) <$> tools)] in
  run* _ := say [PStr (agent_str agent)] in
  run* task := call (TasksCreate (agent_id agent) (taskDefinition D))
                    (tasks_create J (agent_id agent) (taskDefinition D)) in
  run* _ := say [PStr ("Task '" +:+ task_name task
                       +:+ "' created Successfully")] in
  ([], Return task).

(** Lines 255-262: the prompt, the announcement and the submission. *)
Definition submit (J : julep) (t : task) : run execution :=
  run* city_name := call (Input "Enter the City: ")
                         (input J "Enter the City: ") in
  run* _ := say [PStr (String "010" "🚀 Running task for '" +:+ city_name
                       +:+ "'... Julep is now handling the orchestration.")] in
  call (ExecutionsCreate (task_id t) (PDict {[ "city" := PStr city_name ]}))
       (executions_create J (task_id t) (PDict {[ "city" := PStr city_name ]})).

(** Where the loop of lines 263-266 stands, with the object of the last
    call. *)
Inductive awaited : Type :=
| Waiting (calls : nat)
| Done (calls : nat) (result : execution_result)
| Crashed (calls : nat) (e : exn).

(** The loop, for at most [turns] turns, [calls] calls having been made. *)
Fixpoint await (get : nat → outcome execution_result) (turns calls : nat)
  : awaited :=
  match turns with
  | O => Waiting calls
  | S turns' =>
      match get calls with
      | Return result =>
          if is_terminal (result_status result) then Done (S calls) result
          else await get turns' (S calls)
      | Raise e => Crashed (S calls) e
      end
  end.

(** How the process ends: it runs to its last line, it leaves by [exit()],
    it dies of an exception no handler catches, or it is still in the loop
    when the turns are spent. *)
Inductive ending : Type :=
| Completed
| SystemExit
| Traceback (e : exn)
| StillPolling.

(** The lines printed once the loop is left by [break] (lines 270-273). *)
Definition final_answer (result : execution_result) : list action :=
  [ Say [PStr (String "010" "========================================")];
    Say [PStr "✅ Task Execution Complete! Final Answer:"];
    Say [PStr "========================================"];
    PrettyPrint (result_pformat result) ].

(** The script, the loop being followed for at most [turns] turns. *)
Definition main (J : julep) (D : documents) (turns : nat)
  : list action * ending :=
  let start := [Say [PStr "---Initializing Setup---"];
                NewClient (JULEP_API_KEY J)] in
  match Client J (JULEP_API_KEY J) with
  | Raise e => (start, Traceback e)
  | Return _ =>
      match setup J D with
      | (t1, Raise e) =>
          ((start ++ t1 ++ [Say [PStr ("Error creating Tasks " +:+ exn_str e)]])%list,
           SystemExit)
      | (t1, Return task) =>
          match submit J task with
          | (t2, Raise e) =>
              ((start ++ t1 ++ t2 ++ [Say [PStr ("Error " +:+ exn_str e)]])%list,
               SystemExit)
          | (t2, Return execution) =>
              let id := execution_id execution in
              match await (executions_get J id) turns 0 with
              | Waiting calls =>
                  ((start ++ t1 ++ t2 ++ replicate calls (ExecutionsGet id))%list,
                   StillPolling)
              | Crashed calls e =>
                  ((start ++ t1 ++ t2 ++ replicate calls (ExecutionsGet id)
                    ++ [Say [PStr ("Error " +:+ exn_str e)]])%list,
                   SystemExit)
              | Done calls result =>
                  ((start ++ t1 ++ t2 ++ replicate calls (ExecutionsGet id)
                    ++ final_answer result)%list,
                   Completed)
              end
          end
      end
  end.

(** The actions of the second half of the script: the prompt, the
    submission, the polling and the final answer. *)
Definition execution_action (a : action) : bool :=
  match a with
  | Input _ | ExecutionsCreate _ _ | ExecutionsGet _ | PrettyPrint _ => true
  | _ => false
  end.

(** The answers to the calls before number [k] are all statuses that are
    not terminal. *)
Definition pending_before (get : nat → outcome execution_result) (k : nat)
  : Prop :=
  ∀ j, (j < k)%nat →
       ∃ result, get j = Return result ∧
                 is_terminal (result_status result) = false.

(** The first two actions of every run. *)
Definition opening (J : julep) : list action :=
  [Say [PStr "---Initializing Setup---"]; NewClient (JULEP_API_KEY J)].

(** The line the second handler prints. *)
Definition error_line (e : exn) : action :=
  Say [PStr ("Error " +:+ exn_str e)].

(** *** A sample platform *)

Definition sample_documents : documents :=
  Documents {[ "name" := PStr "getWeatherDetails" ]}
            {[ "name" := PStr "findTopRestaurants" ]}
            {[ "name" := PStr "getIconicDish" ]}
            {[ "name" := PStr "Gets One Day Foodie Tour of the City" ]}.

Definition kwargs_name (kwargs : gmap string pyval) : string :=
  match kwargs !! "name" with Some (PStr n) => n | _ => "" end.

(** A platform that accepts everything and answers the polls by [get]. *)
Definition sample_platform (get : nat → outcome execution_result) : julep :=
  Julep (Some "key") (λ _, Return tt)
        (λ _ _ _, Return (Agent "agent-1" "Agent(id='agent-1')"))
        (λ _ kwargs, Return (Tool (kwargs_name kwargs)))
        (λ _, Return [Tool "getWeatherDetails"; Tool "findTopRestaurants";
                      Tool "getIconicDish"])
        (λ _ kwargs, Return (Task "task-1" (kwargs_name kwargs)))
        (λ _, Return "Chennai")
        (λ _ _, Return (Execution "exec-1"))
        (λ _, get).

(** The same platform refusing to create the task. *)
Definition refusing_platform : julep :=
  Julep (Some "key") (λ _, Return tt)
        (λ _ _ _, Return (Agent "agent-1" "Agent(id='agent-1')"))
        (λ _ kwargs, Return (Tool (kwargs_name kwargs)))
        (λ _, Return [Tool "getWeatherDetails"; Tool "findTopRestaurants";
                      Tool "getIconicDish"])
        (λ _ _, Raise (Exn OtherException "quota exceeded"))
        (λ _, Return "Chennai")
        (λ _ _, Return (Execution "exec-1"))
        (λ _ _, Raise (Exn OtherException "unreachable")).


(** Two polls answer [running], the third raises. *)
Definition broken_polls (n : nat) : outcome execution_result :=
  if (n <? 2)%nat then Return (ExecutionResult "running" "Execution(status='running')")
  else Raise (Exn OtherException "connection reset").

(** * Properties *)

(** ** The dish table *)

Lemma city_dishes_miss (city : string) :
  city ∉ cities → city_dishes !! city = None.
Proof.
  unfold cities, city_dishes. intros Hn.
  repeat (rewrite lookup_insert_ne; [| intros <-; apply Hn; set_solver]).
  apply lookup_singleton_ne. intros <-. apply Hn. set_solver.
Qed.

Lemma city_dishes_hit (city : string) (menu : gmap string string) :
  city_dishes !! city = Some menu → city ∈ cities ∧ dom menu = list_to_set meals.
Proof.
  intros Hl. destruct (decide (city ∈ cities)) as [Hin | Hn].
  - split; [done |].
    unfold cities in Hin. repeat (apply elem_of_cons in Hin as [-> | Hin]);
      [ .. | by apply elem_of_nil in Hin ];
      vm_compute in Hl; injection Hl as <-; by vm_compute.
  - rewrite city_dishes_miss in Hl; done.
Qed.

Lemma getIconicDish_miss (city meal_time : string) :
  city ∉ cities ∨ meal_time ∉ meals →
  getIconicDish city meal_time = fallback_dish meal_time.
Proof.
  unfold getIconicDish, fallback_dish. intros [Hc | Hm].
  - rewrite city_dishes_miss; [| done]. simpl. by rewrite lookup_empty.
  - destruct (city_dishes !! city) as [menu |] eqn:Hl; simpl.
    + apply city_dishes_hit in Hl as [_ Hd].
      assert (menu !! meal_time = None) as ->; [| done].
      apply not_elem_of_dom. rewrite Hd. set_solver.
    + by rewrite lookup_empty.
Qed.

(** C5. For a city that is no key of the dish table, and for any meal
    string at all, [getIconicDish] returns the string
    [Famous {meal_time} dish] with the meal interpolated.  The function is
    total and its value is a string: there is no error value and no
    exception to return. *)
Theorem getIconicDish_unknown_city (city meal_time : string) :
  city_dishes !! city = None →
  getIconicDish city meal_time = "Famous " +:+ meal_time +:+ " dish".
Proof.
  intros Hmiss. unfold getIconicDish. rewrite Hmiss. simpl.
  by rewrite lookup_empty.
Qed.

Lemma getIconicDish_unknown_city_witness :
  city_dishes !! "Pune" = None ∧
  getIconicDish "Pune" "brunch" = "Famous brunch dish".
Proof.
  split; [reflexivity |].
  apply (getIconicDish_unknown_city "Pune" "brunch"). reflexivity.
Defined.

(** C6. On the 12 pairs of the 4 cities and 3 meals, [getIconicDish]
    returns the entry of the table (a function of the pair alone); for
    Chennai these are Idli, Sambar Rice and Dosa, and [findTopRestaurants]
    called with each of them searches for
    [Best authentic {dish} restaurants in Chennai]. *)
Theorem getIconicDish_table :
  length (list_prod cities meals) = 12%nat ∧
  (∀ city meal_time, city ∈ cities → meal_time ∈ meals →
     ∃ menu dish, city_dishes !! city = Some menu ∧
                  menu !! meal_time = Some dish ∧
                  getIconicDish city meal_time = dish) ∧
  getIconicDish "Chennai" "breakfast" = "Idli" ∧
  getIconicDish "Chennai" "lunch" = "Sambar Rice" ∧
  getIconicDish "Chennai" "dinner" = "Dosa" ∧
  (∀ E key, googlemaps_Client (MAPS_API_KEY E) = Return key →
     (findTopRestaurants E "Chennai" (getIconicDish "Chennai" "breakfast")).1
     = [Print "---> Searching Google Maps for Best authentic Idli restaurants in Chennai";
        PlacesSearch "Best authentic Idli restaurants in Chennai" "en"] ∧
     (findTopRestaurants E "Chennai" (getIconicDish "Chennai" "lunch")).1
     = [Print "---> Searching Google Maps for Best authentic Sambar Rice restaurants in Chennai";
        PlacesSearch "Best authentic Sambar Rice restaurants in Chennai" "en"] ∧
     (findTopRestaurants E "Chennai" (getIconicDish "Chennai" "dinner")).1
     = [Print "---> Searching Google Maps for Best authentic Dosa restaurants in Chennai";
        PlacesSearch "Best authentic Dosa restaurants in Chennai" "en"]).
Proof.
  split; [reflexivity |]. split.
  - intros city meal_time Hc Hm. unfold cities in Hc. unfold meals in Hm.
    repeat (apply elem_of_cons in Hc as [-> | Hc]);
      [ .. | by apply elem_of_nil in Hc ];
      (repeat (apply elem_of_cons in Hm as [-> | Hm]);
        [ .. | by apply elem_of_nil in Hm ]);
      eexists _, _; (split; [reflexivity |]); split; reflexivity.
  - do 3 (split; [reflexivity |]).
    intros E key Hkey.
    assert (∀ dish, (findTopRestaurants E "Chennai" dish).1
                    = [Print ("---> Searching Google Maps for "
                              +:+ restaurant_query "Chennai" dish);
                       PlacesSearch (restaurant_query "Chennai" dish) "en"])
      as Htrace.
    { intros dish. unfold findTopRestaurants, io_try, restaurants_try.
      rewrite Hkey. unfold io_bind, emit, lift; simpl.
      by destruct (gmaps_places E _ _). }
    repeat split; apply Htrace.
Qed.

Lemma getIconicDish_table_witness :
  googlemaps_Client (Some "AIzaSyExample") = Return "AIzaSyExample" ∧
  (findTopRestaurants
     (Env None (Some "AIzaSyExample") 0 (λ _, 0)
          (λ _, Raise (Exn RequestsConnectionError "unreachable"))
          (λ _ _, Return (PDict ∅)))
     "Chennai" (getIconicDish "Chennai" "dinner")).1
  = [Print "---> Searching Google Maps for Best authentic Dosa restaurants in Chennai";
     PlacesSearch "Best authentic Dosa restaurants in Chennai" "en"].
Proof.
  split; [reflexivity |].
  pose proof getIconicDish_table as (_ & _ & _ & _ & _ & Hquery).
  apply (Hquery
    (Env None (Some "AIzaSyExample") 0 (λ _, 0)
          (λ _, Raise (Exn RequestsConnectionError "unreachable"))
          (λ _ _, Return (PDict ∅))) "AIzaSyExample").
  reflexivity.
Defined.

Lemma lower_key_fixed (city key : string) :
  city ∈ cities → key ∈ cities →
  string_lower city = string_lower key → city = key.
Proof.
  unfold cities. intros Hc Hk.
  repeat (apply elem_of_cons in Hc as [-> | Hc]);
    [ .. | by apply elem_of_nil in Hc ];
    (repeat (apply elem_of_cons in Hk as [-> | Hk]);
      [ .. | by apply elem_of_nil in Hk ]);
    vm_compute; congruence.
Qed.

Lemma lower_meal_fixed (meal : string) :
  meal ∈ meals → string_lower meal = meal.
Proof.
  unfold meals. intros Hm.
  repeat (apply elem_of_cons in Hm as [-> | Hm]);
    [ .. | by apply elem_of_nil in Hm ]; reflexivity.
Qed.

(** C10. The lookup matches the city and the meal exactly, casing
    included: a city that is a casing variant of a key of the table (as
    [chennai]), or a meal that is a casing variant of a meal key (as
    [Breakfast]), gets the fallback [Famous {meal_time} dish], not the
    entry of the table. *)
Theorem getIconicDish_case_sensitive (city meal_time : string) :
  (∃ key, key ∈ cities ∧ casing_variant key city) ∨
  (∃ key, key ∈ meals ∧ casing_variant key meal_time) →
  getIconicDish city meal_time = "Famous " +:+ meal_time +:+ " dish".
Proof.
  intros H. apply getIconicDish_miss.
  destruct H as [(key & Hkey & Hne & Hlow) | (key & Hkey & Hne & Hlow)].
  - left. intros Hin. apply Hne. by apply lower_key_fixed.
  - right. intros Hin. apply Hne.
    rewrite <- (lower_meal_fixed meal_time Hin), Hlow.
    by apply lower_meal_fixed.
Qed.

Lemma getIconicDish_case_sensitive_witness :
  (getIconicDish "chennai" "breakfast" = "Famous breakfast dish" ∧
   getIconicDish "Chennai" "Breakfast" = "Famous Breakfast dish") ∧
  getIconicDish "Chennai" "breakfast" = "Idli".
Proof.
  split; [split |].
  - apply (getIconicDish_case_sensitive "chennai" "breakfast").
    left. exists "Chennai". split; [| split].
    + unfold cities. set_solver.
    + discriminate.
    + reflexivity.
  - apply (getIconicDish_case_sensitive "Chennai" "Breakfast").
    right. exists "breakfast". split; [| split].
    + unfold meals. set_solver.
    + discriminate.
    + reflexivity.
  - reflexivity.
Defined.

(** ** The polling loop *)

Lemma is_terminal_spec (status : string) :
  is_terminal status = true ↔ status = "succeeded" ∨ status = "failed".
Proof.
  unfold is_terminal. rewrite bool_decide_eq_true, !elem_of_cons, elem_of_nil.
  tauto.
Qed.

Lemma is_terminal_false (status : string) :
  is_terminal status = false ↔ status ≠ "succeeded" ∧ status ≠ "failed".
Proof.
  rewrite <- not_true_iff_false, is_terminal_spec. tauto.
Qed.

Lemma poll_loop_S get (turns : nat) (s : poll_state) :
  poll_loop get (S turns) s = poll_step get (poll_loop get turns s).
Proof.
  revert s. induction turns as [| turns IH]; intros s; [done |].
  change (poll_loop get (S (S turns)) s)
    with (poll_loop get (S turns) (poll_step get s)).
  by rewrite IH.
Qed.

(** After any number of turns the loop is either still polling, every
    status seen so far being non-terminal, or it has left at the first
    terminal status. *)
Lemma poll_statuses_char (statuses : nat → string) (turns : nat) :
  (poll_statuses statuses turns = Polling turns ∧
   ∀ j, (j < turns)%nat → is_terminal (statuses j) = false) ∨
  (∃ k, (k < turns)%nat ∧ is_terminal (statuses k) = true ∧
        (∀ j, (j < k)%nat → is_terminal (statuses j) = false) ∧
        poll_statuses statuses turns = Broke (S k) (statuses k)).
Proof.
  unfold poll_statuses. induction turns as [| turns IH]; [left; split; [done | lia] |].
  rewrite poll_loop_S.
  destruct IH as [[-> Hnone] | (k & Hk & Hterm & Hfirst & ->)].
  - simpl. destruct (is_terminal (statuses turns)) eqn:Hlast.
    + right. exists turns. repeat split; [lia | done | done].
    + left. split; [done |]. intros j Hj.
      destruct (decide (j = turns)) as [-> | Hne]; [done | apply Hnone; lia].
  - right. exists k. repeat split; [lia | done | done].
Qed.

(** C7. Against any sequence of polled statuses the loop leaves, by
    [break], exactly at the first status that is [succeeded] or [failed]:
    before that turn it is still polling, from that turn on it has left
    with that status; when no status of the sequence is terminal it is
    still polling after any number of turns; and it leaves at all if and
    only if some status is terminal.  A turn is one call and one test:
    the model has no sleep, deadline or cancellation to leave by. *)
Theorem polling_loop_exits_at_first_terminal (statuses : nat → string) :
  (∀ k, first_terminal statuses k →
     ∀ turns, poll_statuses statuses turns
              = if decide (k < turns)%nat then Broke (S k) (statuses k)
                else Polling turns) ∧
  ((∀ k, statuses k ≠ "succeeded" ∧ statuses k ≠ "failed") →
     ∀ turns, poll_statuses statuses turns = Polling turns) ∧
  ((∃ turns calls status, poll_statuses statuses turns = Broke calls status) ↔
   (∃ k, statuses k = "succeeded" ∨ statuses k = "failed")).
Proof.
  split; [| split].
  - intros k [Hterm Hfirst] turns. apply is_terminal_spec in Hterm.
    destruct (poll_statuses_char statuses turns)
      as [[Hrun Hnone] | (k' & Hk' & Hterm' & Hfirst' & Hrun)].
    + case_decide as Hlt; [| done].
      specialize (Hnone k Hlt). congruence.
    + assert (k' = k) as ->.
      { destruct (Nat.lt_trichotomy k' k) as [Hlt | [-> | Hgt]]; [| done |].
        - apply Hfirst, is_terminal_false in Hlt. congruence.
        - apply Hfirst' in Hgt. congruence. }
      by rewrite decide_True.
  - intros Hnever turns.
    destruct (poll_statuses_char statuses turns)
      as [[Hrun _] | (k & _ & Hterm & _)]; [done |].
    specialize (Hnever k). apply is_terminal_false in Hnever. congruence.
  - split.
    + intros (turns & calls & status & Hrun).
      destruct (poll_statuses_char statuses turns)
        as [[Hrun' _] | (k & _ & Hterm & _)]; [congruence |].
      exists k. by apply is_terminal_spec.
    + intros [k Hterm]. apply is_terminal_spec in Hterm.
      destruct (poll_statuses_char statuses (S k))
        as [[_ Hnone] | (k' & _ & _ & _ & Hrun)]; [| eauto].
      specialize (Hnone k (Nat.lt_succ_diag_r k)). congruence.
Qed.

Lemma polling_loop_exits_at_first_terminal_witness :
  first_terminal (λ n, if (n <? 2)%nat then "running" else "succeeded") 2 ∧
  poll_statuses (λ n, if (n <? 2)%nat then "running" else "succeeded") 7
  = Broke 3 "succeeded" ∧
  poll_statuses (λ _, "running") 7 = Polling 7.
Proof.
  assert (first_terminal (λ n, if (n <? 2)%nat then "running" else "succeeded") 2)
    as Hfirst.
  { split; [by left |]. intros [| [| j]] Hj; [done | done | lia]. }
  split; [exact Hfirst |]. split.
  - exact (proj1 (polling_loop_exits_at_first_terminal _) 2%nat Hfirst 7%nat).
  - apply (proj1 (proj2 (polling_loop_exits_at_first_terminal (λ _, "running")))).
    intros _. done.
Defined.

(** ** getWeatherDetails *)

(** With the key set, the call is one GET followed by the guarded body. *)
Lemma getWeatherDetails_key_set (E : env) (city key : string) :
  OPENWEATHER_API_KEY E = Some key →
  getWeatherDetails E city
  = ([HttpGet (weather_url key city)],
     try_except
       (let* response := requests_get E (weather_url key city) in
        let* _ := raise_for_status response in
        let* forecastData := json response in
        summarise (utcoffset E) (now E) forecastData)
       weather_handler).
Proof.
  intros Hkey. unfold getWeatherDetails, weather_try, io_try, io_bind, lift, emit.
  rewrite Hkey. simpl. fold (weather_url key city).
  destruct (requests_get E (weather_url key city)); reflexivity.
Qed.

(** Every clause of the handler returns a dictionary with the single key
    [error]. *)
Lemma weather_handler_error (e : exn) :
  ∃ message, weather_handler e = Return (error_dict message).
Proof.
  unfold weather_handler.
  destruct (is_RequestException e); [eauto |]. destruct (is_KeyError e); eauto.
Qed.

Lemma error_dict_not_empty (message : string) : error_dict message ≠ PDict ∅.
Proof.
  unfold error_dict. intros H.
  assert (({[ "error" := PStr message ]} : gmap string pyval) = ∅) as Hd
    by congruence.
  apply (f_equal (λ m : gmap string pyval, m !! "error")) in Hd.
  by rewrite lookup_singleton_eq, lookup_empty in Hd.
Qed.

Lemma error_dict_dom (message : string) (d : gmap string pyval) :
  error_dict message = PDict d → "error" ∈ dom d.
Proof.
  unfold error_dict. intros [= <-]. rewrite dom_singleton_L. set_solver.
Qed.

(** C1, at the unset key.  The URL is concatenated on line 19, before the
    [try] of line 21: with [OPENWEATHER_API_KEY] unset the concatenation
    raises [TypeError], no request is made, and the exception reaches the
    caller. *)
Theorem getWeatherDetails_unset_key_raises (E : env) (city : string) :
  OPENWEATHER_API_KEY E = None →
  getWeatherDetails E city
  = ([], Raise (Exn TypeError
                  ("can only concatenate str (not " +:+ String "034" "NoneType"
                   +:+ String "034" ") to str"))).
Proof.
  intros Hkey. unfold getWeatherDetails, io_bind, lift. by rewrite Hkey.
Qed.

Lemma getWeatherDetails_unset_key_raises_witness :
  ∃ e, exn_cls e = TypeError ∧
       getWeatherDetails
         (Env None None 0 (λ _, 0)
              (λ _, Raise (Exn RequestsConnectionError "unreachable"))
              (λ _ _, Return (PDict ∅)))
         "Chennai"
       = ([], Raise e).
Proof.
  eexists. split; [| apply getWeatherDetails_unset_key_raises; reflexivity].
  reflexivity.
Defined.

(** The part of C1 that holds: with the key set, whatever the services
    answer, [getWeatherDetails] returns a dictionary; a failure of the
    request returns the [error] that names the weather service. *)
Lemma getWeatherDetails_key_set_returns (E : env) (city key : string) :
  OPENWEATHER_API_KEY E = Some key →
  (∃ v, (getWeatherDetails E city).2 = Return v) ∧
  (∀ e, requests_get E (weather_url key city) = Raise e →
        is_RequestException e = true →
        (getWeatherDetails E city).2
        = Return (error_dict ("Error connecting to Weather Service: "
                              +:+ exn_str e))).
Proof.
  intros Hkey. rewrite (getWeatherDetails_key_set E city key Hkey). simpl.
  split.
  - destruct (let* response := _ in _) as [v | e]; simpl; [eauto |].
    destruct (weather_handler_error e) as [message ->]. eauto.
  - intros e -> Hreq. simpl. unfold weather_handler. by rewrite Hreq.
Qed.

Lemma PDict_inj (a b : gmap string pyval) : PDict a = PDict b → a = b.
Proof. congruence. Qed.

Lemma Return_inj {A} (a b : A) : Return a = Return b → a = b.
Proof. congruence. Qed.

Lemma ne_200_true (cod : pyval) : cod ≠ PStr "200" → ne_200 cod = true.
Proof.
  intros Hne. destruct cod as [| | | | s | |]; try reflexivity. simpl.
  apply negb_true_iff, String.eqb_neq. congruence.
Qed.

(** An exception raised inside the [try] comes back as an [error]
    dictionary, which is not the empty one. *)
Lemma getWeatherDetails_exception_path (E : env) (city key : string) (e : exn) :
  OPENWEATHER_API_KEY E = Some key →
  (weather_try E (weather_url key city)).2 = Raise e →
  ∃ message, (getWeatherDetails E city).2 = Return (error_dict message) ∧
             error_dict message ≠ PDict ∅.
Proof.
  intros Hkey Hraise.
  unfold getWeatherDetails, io_bind, lift. rewrite Hkey. simpl.
  fold (weather_url key city). rewrite Hraise. simpl.
  destruct (weather_handler_error e) as [message ->].
  exists message. split; [done | apply error_dict_not_empty].
Qed.

(** C2 as stated fails: the service answers an unknown city with status
    404 and a JSON body whose [cod] is [404]; [raise_for_status] raises
    before the body is read, and the tool returns an [error] dictionary,
    not the empty one. *)
Lemma cod_not_200_with_status_404 :
  requests_get not_found_env (weather_url "0123" "Atlantis")
  = Return (Response 404 "Not Found" (weather_url "0123" "Atlantis")
                     (Return (PDict not_found_body))) ∧
  not_found_body !! "cod" = Some (PStr "404") ∧
  PStr "404" ≠ PStr "200" ∧
  (getWeatherDetails not_found_env "Atlantis").2
  = Return (error_dict
      "Error connecting to Weather Service: 404 Client Error: Not Found for url: http://api.openweathermap.org/data/2.5/forecast?appid=0123&q=Atlantis&units=metric") ∧
  (getWeatherDetails not_found_env "Atlantis").2 ≠ Return (PDict ∅).
Proof.
  split; [reflexivity |]. split; [reflexivity |]. split; [discriminate |].
  assert ((getWeatherDetails not_found_env "Atlantis").2
          = Return (error_dict
      "Error connecting to Weather Service: 404 Client Error: Not Found for url: http://api.openweathermap.org/data/2.5/forecast?appid=0123&q=Atlantis&units=metric"))
    as Hrun by (vm_compute; reflexivity).
  split; [exact Hrun |]. rewrite Hrun. intros H.
  apply Return_inj in H. by apply error_dict_not_empty in H.
Qed.

(** A status from 400 to 599 makes [raise_for_status] raise [HTTPError],
    with the status, the reason and the URL in its text. *)
Lemma raise_for_status_error (r : response) :
  400 ≤ status_code r < 600 →
  raise_for_status r
  = Raise (Exn HTTPError
             (pretty (status_code r)
              +:+ (if status_code r <? 500 then " Client Error: "
                   else " Server Error: ")
              +:+ reason r +:+ " for url: " +:+ url r)).
Proof.
  intros Hstatus. unfold raise_for_status.
  rewrite (proj2 (Z.leb_le 400 (status_code r))) by lia. cbn [andb].
  destruct (status_code r <? 500) eqn:Hlt; [reflexivity |].
  apply Z.ltb_ge in Hlt.
  rewrite (proj2 (Z.leb_le 500 (status_code r))) by lia.
  rewrite (proj2 (Z.ltb_lt (status_code r) 600)) by lia.
  reflexivity.
Qed.

(** C2, amended.  For a response that passes [raise_for_status] (a status
    outside 400-599) and whose body decodes to a JSON object with a [cod]
    field that is not the string 200, [getWeatherDetails] returns the
    empty dictionary, with no key at all; every exception raised inside
    the [try] returns instead a dictionary with the key [error], which
    differs from the empty one; and a response with a status from 400 to
    599 returns the [error] dictionary of the [RequestException] clause,
    whatever its body says. *)
Theorem cod_not_200_returns_empty (E : env) (city key : string)
    (r : response) (body : gmap string pyval) (cod : pyval) :
  OPENWEATHER_API_KEY E = Some key →
  requests_get E (weather_url key city) = Return r →
  raise_for_status r = Return tt →
  json r = Return (PDict body) →
  body !! "cod" = Some cod →
  cod ≠ PStr "200" →
  (∃ d, (getWeatherDetails E city).2 = Return (PDict d) ∧ dom d = ∅) ∧
  (∀ E' city' key' e,
     OPENWEATHER_API_KEY E' = Some key' →
     (weather_try E' (weather_url key' city')).2 = Raise e →
     ∃ d', (getWeatherDetails E' city').2 = Return (PDict d') ∧
           "error" ∈ dom d' ∧ d' ≠ ∅) ∧
  (∀ E' city' key' r',
     OPENWEATHER_API_KEY E' = Some key' →
     requests_get E' (weather_url key' city') = Return r' →
     400 ≤ status_code r' < 600 →
     ∃ e, is_RequestException e = true ∧
          exn_str e
          = pretty (status_code r')
            +:+ (if status_code r' <? 500 then " Client Error: "
                 else " Server Error: ")
            +:+ reason r' +:+ " for url: " +:+ url r' ∧
          (getWeatherDetails E' city').2
          = Return (PDict {[ "error" :=
                               PStr ("Error connecting to Weather Service: "
                                     +:+ exn_str e) ]})).
Proof.
  intros Hkey Hget Hstatus Hjson Hcod Hne. split; [| split].
  - exists ∅. split; [| apply dom_empty_L].
    rewrite (getWeatherDetails_key_set E city key Hkey). simpl.
    rewrite Hget. simpl. rewrite Hstatus. simpl. rewrite Hjson. simpl.
    unfold summarise. simpl. rewrite Hcod. simpl.
    by rewrite (ne_200_true cod Hne).
  - intros E' city' key' e Hkey' Hraise.
    destruct (getWeatherDetails_exception_path E' city' key' e Hkey' Hraise)
      as (message & Hrun & Hnot).
    exists {[ "error" := PStr message ]}. split; [exact Hrun |]. split.
    + rewrite dom_singleton_L. by apply elem_of_singleton.
    + intros Hempty. apply Hnot. unfold error_dict. by rewrite Hempty.
  - intros E' city' key' r' Hkey' Hget' Hstatus'.
    eexists (Exn HTTPError _). split; [reflexivity |]. split; [reflexivity |].
    rewrite (getWeatherDetails_key_set E' city' key' Hkey'). cbn [snd].
    rewrite Hget'. cbn [obind].
    by rewrite (raise_for_status_error r' Hstatus').
Qed.

Lemma cod_not_200_returns_empty_witness :
  (∃ d, (getWeatherDetails
           (Env (Some "0123") None 0 (λ _, 0)
                (λ u, Return (Response 200 "OK" u
                                (Return (PDict {[ "cod" := PStr "429" ]}))))
                (λ _ _, Return (PDict ∅)))
           "Chennai").2 = Return (PDict d) ∧ dom d = ∅).
Proof.
  refine (proj1 (cod_not_200_returns_empty
    (Env (Some "0123") None 0 (λ _, 0)
         (λ u, Return (Response 200 "OK" u
                         (Return (PDict {[ "cod" := PStr "429" ]}))))
         (λ _ _, Return (PDict ∅)))
    "Chennai" "0123"
    (Response 200 "OK" (weather_url "0123" "Chennai")
              (Return (PDict {[ "cod" := PStr "429" ]})))
    {[ "cod" := PStr "429" ]} (PStr "429") _ _ _ _ _ _));
    [reflexivity | reflexivity | reflexivity | reflexivity | reflexivity
    | discriminate].
Defined.

(** ** findTopRestaurants *)

(** With a key the client accepts, the call prints, searches once and
    hands the answer to [top_three] under the handler. *)
Lemma findTopRestaurants_key_ok (E : env) (city dishName key : string) :
  googlemaps_Client (MAPS_API_KEY E) = Return key →
  findTopRestaurants E city dishName
  = ([Print ("---> Searching Google Maps for "
             +:+ restaurant_query city dishName);
      PlacesSearch (restaurant_query city dishName) "en"],
     try_except
       (let* places := gmaps_places E (restaurant_query city dishName) "en" in
        top_three city dishName places)
       maps_handler).
Proof.
  intros Hkey. unfold findTopRestaurants, restaurants_try, io_try, io_bind.
  rewrite Hkey. simpl.
  destruct (gmaps_places E (restaurant_query city dishName) "en"); reflexivity.
Qed.

(** What [top_three] returns is one of the two shapes. *)
Lemma top_three_shape (city dishName : string) (places v : pyval) :
  top_three city dishName places = Return v →
  (∃ restaurants, v = PDict {[ "restaurants" := PList restaurants ]}) ∨
  (∃ message, v = error_dict message).
Proof.
  unfold top_three. destruct (no_results places) as [[|] | e]; simpl;
    [intros [= <-]; eauto | | discriminate].
  destruct (getitem_str places "results") as [results | e]; [| discriminate].
  simpl. destruct (slice_3 results) as [first3 | e]; [| discriminate].
  simpl. destruct (py_iter first3) as [items | e]; [| discriminate].
  simpl. destruct (collect_places items []) as [restaurants | e];
    [| discriminate].
  simpl. intros [= <-]. eauto.
Qed.

Lemma findTopRestaurants_shape (E : env) (city dishName : string) :
  (∃ restaurants, (findTopRestaurants E city dishName).2
                  = Return (PDict {[ "restaurants" := PList restaurants ]})) ∨
  (∃ message, (findTopRestaurants E city dishName).2
              = Return (error_dict message)).
Proof.
  destruct (googlemaps_Client (MAPS_API_KEY E)) as [key | e] eqn:Hkey.
  - rewrite (findTopRestaurants_key_ok E city dishName key Hkey). simpl.
    destruct (gmaps_places E _ _) as [places | e]; simpl; [| right; eauto].
    destruct (top_three city dishName places) as [v | e] eqn:Htop; simpl;
      [| right; eauto].
    destruct (top_three_shape _ _ _ _ Htop) as [[l ->] | [m ->]]; eauto.
  - right. unfold findTopRestaurants, restaurants_try, io_try, io_bind.
    rewrite Hkey. simpl. eauto.
Qed.

(** C9. Whatever the environment and the arguments, [findTopRestaurants]
    returns a dictionary that has exactly one of the keys [restaurants] and
    [error]: either the list of restaurants under the key [restaurants]
    and no [error], or an [error] and no [restaurants]. *)
Theorem findTopRestaurants_one_key (E : env) (city dishName : string) :
  ∃ d, (findTopRestaurants E city dishName).2 = Return (PDict d) ∧
       (("restaurants" ∈ dom d ∧ ("error" ∉ dom d) ∧
         (∃ restaurants, d !! "restaurants" = Some (PList restaurants))) ∨
        ("error" ∈ dom d ∧ "restaurants" ∉ dom d)).
Proof.
  destruct (findTopRestaurants_shape E city dishName) as [[l ->] | [m ->]].
  - eexists. split; [reflexivity |]. left.
    rewrite dom_singleton_L, !elem_of_singleton, lookup_singleton_eq.
    split; [done |]. split; [discriminate | eauto].
  - unfold error_dict. eexists. split; [reflexivity |]. right.
    rewrite dom_singleton_L, !elem_of_singleton. split; [done | discriminate].
Qed.

Lemma place_summary_object (place : pyval) :
  place_object place → place_summary place = Return (reduced_place place).
Proof.
  intros (p & -> & Haddr). unfold place_summary, reduced_place. simpl.
  destruct Haddr as [-> | [a ->]]; simpl; [by rewrite lookup_empty |].
  reflexivity.
Qed.

Lemma collect_places_objects (items restaurants : list pyval) :
  Forall place_object items →
  collect_places items restaurants
  = Return (restaurants ++ (reduced_place <$> items))%list.
Proof.
  intros Hall. revert restaurants.
  induction Hall as [| place rest Hplace _ IH]; intros restaurants; simpl.
  - by rewrite app_nil_r.
  - rewrite (place_summary_object place Hplace). simpl.
    rewrite IH. by rewrite <- app_assoc.
Qed.

Lemma mentions_middle (before needle after : string) :
  mentions (before +:+ needle +:+ after) needle.
Proof. by exists before, after. Qed.

Lemma append_assoc (a b c : string) : (a +:+ b) +:+ c = a +:+ b +:+ c.
Proof.
  induction a as [| ch a IH]; [reflexivity |].
  change ((String ch a +:+ b) +:+ c) with (String ch ((a +:+ b) +:+ c)).
  by rewrite IH.
Qed.

Lemma append_nil_r (a : string) : a +:+ "" = a.
Proof.
  induction a as [| ch a IH]; [reflexivity |].
  change (String ch a +:+ "") with (String ch (a +:+ "")). by rewrite IH.
Qed.

Lemma mentions_end (before needle : string) :
  mentions (before +:+ needle) needle.
Proof. exists before, "". by rewrite append_nil_r. Qed.

Lemma no_results_message_mentions (city dishName : string) :
  mentions ("No results found for '" +:+ dishName +:+ "' in " +:+ city) dishName ∧
  mentions ("No results found for '" +:+ dishName +:+ "' in " +:+ city) city.
Proof.
  split; [apply mentions_middle |].
  rewrite <- !append_assoc. apply mentions_end.
Qed.

(** C4. When the search answers an object whose [results] is a list of [n]
    places: for [n >= 1] (the first three being place objects) the tool
    returns the first [min n 3] of them, in order, each reduced to its
    name, its rating or [N/A], and its formatted address or
    [Address Not Available]; for [n = 0] it returns an [error] whose text
    mentions the dish and the city. *)
Theorem findTopRestaurants_first_three (E : env) (city dishName key : string)
    (answer : gmap string pyval) (results : list pyval) :
  googlemaps_Client (MAPS_API_KEY E) = Return key →
  gmaps_places E (restaurant_query city dishName) "en" = Return (PDict answer) →
  answer !! "results" = Some (PList results) →
  (results ≠ [] → Forall place_object (take 3 results) →
     (findTopRestaurants E city dishName).2
     = Return (PDict {[ "restaurants" :=
                          PList (reduced_place <$> take 3 results) ]}) ∧
     length (reduced_place <$> take 3 results) = Nat.min (length results) 3) ∧
  (results = [] →
     ∃ message, (findTopRestaurants E city dishName).2
                = Return (PDict {[ "error" := PStr message ]}) ∧
                mentions message dishName ∧ mentions message city).
Proof.
  intros Hkey Hsearch Hresults.
  rewrite (findTopRestaurants_key_ok E city dishName key Hkey). simpl.
  rewrite Hsearch. simpl.
  assert (truthy (PDict answer) = true) as Hanswer.
  { simpl. apply negb_true_iff, bool_decide_eq_false. intros ->.
    by rewrite lookup_empty in Hresults. }
  unfold top_three, no_results. rewrite Hanswer.
  cbn [negb obind py_get getitem_str]. rewrite Hresults.
  cbn [default obind]. split.
  - intros Hne Hobjects.
    unfold id.
    assert (truthy (PList results) = true) as ->
      by (by destruct results).
    cbn [negb obind slice_3 py_iter].
    rewrite (collect_places_objects _ [] Hobjects).
    split; [reflexivity |].
    rewrite length_fmap, length_take. lia.
  - intros ->. simpl.
    exists ("No results found for '" +:+ dishName +:+ "' in " +:+ city).
    split; [reflexivity | apply no_results_message_mentions].
Qed.

(** ** Rounding *)

(** [round_half_even m e] is an integer nearest to [m * 2^e]: exact for a
    non-negative exponent, within half a unit otherwise, and even on a
    tie. *)
Lemma round_half_even_nearest (m e : Z) :
  (0 ≤ e → round_half_even m e = m * 2 ^ e) ∧
  (e < 0 →
   2 * Z.abs (round_half_even m e * 2 ^ (- e) - m) ≤ 2 ^ (- e) ∧
   (2 * Z.abs (round_half_even m e * 2 ^ (- e) - m) = 2 ^ (- e) →
    Z.even (round_half_even m e) = true)).
Proof.
  unfold round_half_even. split.
  - intros He. by rewrite (proj2 (Z.leb_le 0 e) He).
  - intros He. rewrite (proj2 (Z.leb_gt 0 e) He).
    assert (0 < 2 ^ (- e)) as Hd by (apply Z.pow_pos_nonneg; lia).
    set (d := 2 ^ (- e)) in *.
    pose proof (Z.div_mod m d ltac:(lia)) as Hdiv.
    pose proof (Z.mod_pos_bound m d Hd) as Hmod.
    set (q := m / d) in *. set (r := m mod d) in *.
    destruct (Z.compare_spec (2 * r) d) as [Heq | Hlt | Hgt].
    + destruct (Z.even q) eqn:Heven.
      * split; [nia | done].
      * split; [nia |]. intros _.
        rewrite Z.even_add, Heven. reflexivity.
    + split; [nia | nia].
    + split; [nia | nia].
Qed.

(** ** The loop over the forecast entries *)

Lemma within_24h_Return (now t : datetime) (inside : bool) :
  within_24h now t = Return inside →
  inside = (now <? t) && (t <? now + timedelta_24h).
Proof.
  unfold within_24h, add_24h. destruct (now <? t); [| by intros [= <-]].
  destruct (now + timedelta_24h <=? datetime_max); [| discriminate].
  by intros [= <-].
Qed.

(** An entry whose [dt] could be read is a non-empty dictionary, hence
    true where the loop tests [not todayMorningForecast]. *)
Lemma forecast_time_truthy (offset : Z → Z) (forecast : pyval) (t : datetime) :
  forecast_time offset forecast = Return t → truthy forecast = true.
Proof.
  unfold forecast_time.
  destruct forecast as [| | | | | | d]; try discriminate. simpl.
  destruct (d !! "dt") eqn:Hdt; [| discriminate]. intros _.
  apply negb_true_iff, bool_decide_eq_false. intros ->.
  by rewrite lookup_empty in Hdt.
Qed.

Lemma loop_body_Return (offset : Z → Z) (now : datetime) (st st' : slots)
    (forecast : pyval) :
  loop_body offset now st forecast = Return st' →
  ∃ t, forecast_time offset forecast = Return t ∧
       todayMorningForecast st'
       = slot_after now 7 12 forecast t (todayMorningForecast st) ∧
       todayLunchForecast st'
       = slot_after now 12 17 forecast t (todayLunchForecast st) ∧
       todayEveningForecast st'
       = slot_after now 18 23 forecast t (todayEveningForecast st).
Proof.
  unfold loop_body.
  destruct (forecast_time offset forecast) as [t | e]; [| discriminate].
  cbn [obind].
  destruct (within_24h now t) as [inside | e] eqn:Hin; [| discriminate].
  apply within_24h_Return in Hin. cbn [obind]. intros Hst. exists t.
  split; [reflexivity |]. unfold slot_after, in_window. rewrite <- Hin.
  destruct st as [m l e]. destruct inside; [| by injection Hst as <-].
  cbn [andb todayMorningForecast todayLunchForecast todayEveningForecast] in *.
  injection Hst as <-.
  destruct ((7 <=? hour t) && (hour t <? 12) && negb (truthy m));
    cbn [todayMorningForecast todayLunchForecast todayEveningForecast];
    destruct ((12 <=? hour t) && (hour t <? 17) && negb (truthy l));
    cbn [todayMorningForecast todayLunchForecast todayEveningForecast];
    destruct ((18 <=? hour t) && (hour t <? 23) && negb (truthy e));
    done.
Qed.

Lemma first_in_window_cons (now : datetime) (lo hi : Z) (forecast : pyval)
    (t : datetime) (timed : list (pyval * datetime)) :
  first_in_window now lo hi ((forecast, t) :: timed)
  = if in_window now lo hi t then Some forecast
    else first_in_window now lo hi timed.
Proof.
  unfold first_in_window. simpl. by destruct (in_window now lo hi t).
Qed.

Lemma slot_final_cons (now : datetime) (lo hi : Z) (forecast : pyval)
    (t : datetime) (timed : list (pyval * datetime)) (current : pyval) :
  truthy forecast = true →
  slot_final now lo hi timed (slot_after now lo hi forecast t current)
  = slot_final now lo hi ((forecast, t) :: timed) current.
Proof.
  intros Htrue. unfold slot_final, slot_after.
  rewrite first_in_window_cons.
  destruct (truthy current) eqn:Hcur.
  - rewrite andb_false_r. by rewrite Hcur.
  - rewrite andb_true_r. destruct (in_window now lo hi t).
    + by rewrite Htrue.
    + by rewrite Hcur.
Qed.

(** The loop as a whole: every entry has a readable time, and each slot
    ends with the first entry of its window unless it was set before. *)
Lemma forecast_loop_Return (offset : Z → Z) (now : datetime)
    (items : list pyval) (st st' : slots) :
  forecast_loop offset now items st = Return st' →
  ∃ times,
    Forall2 (λ forecast t, forecast_time offset forecast = Return t)
            items times ∧
    todayMorningForecast st'
    = slot_final now 7 12 (zip items times) (todayMorningForecast st) ∧
    todayLunchForecast st'
    = slot_final now 12 17 (zip items times) (todayLunchForecast st) ∧
    todayEveningForecast st'
    = slot_final now 18 23 (zip items times) (todayEveningForecast st).
Proof.
  revert st. induction items as [| forecast rest IH]; intros st; simpl.
  - intros [= <-]. exists []. split; [constructor |].
    unfold slot_final, first_in_window. simpl.
    repeat split; by destruct (truthy _).
  - destruct (loop_body offset now st forecast) as [st1 | e] eqn:Hbody;
      [| discriminate].
    cbn [obind]. intros Hrest.
    destruct (loop_body_Return _ _ _ _ _ Hbody) as (t & Ht & Hm & Hl & He).
    destruct (IH st1 Hrest) as (times & Htimes & Hm' & Hl' & He').
    pose proof (forecast_time_truthy _ _ _ Ht) as Htrue.
    exists (t :: times). split; [by constructor |].
    cbn [zip zip_with].
    rewrite <- !slot_final_cons by done. by rewrite <- Hm, <- Hl, <- He.
Qed.

(** A found entry is one of the entries. *)
Lemma first_in_window_elem (now : datetime) (lo hi : Z)
    (items : list pyval) (times : list datetime) (forecast : pyval) :
  first_in_window now lo hi (zip items times) = Some forecast →
  forecast ∈ items.
Proof.
  unfold first_in_window.
  destruct (List.find _ _) as [[f t] |] eqn:Hfind; [| discriminate].
  intros [= <-]. apply List.find_some in Hfind as [Hin _].
  apply list_elem_of_In in Hin. by apply elem_of_zip_l in Hin.
Qed.

Lemma findTopRestaurants_first_three_witness :
  (findTopRestaurants sample_maps_env "Chennai" "Idli").2
  = Return (PDict {[ "restaurants" := PList sample_restaurants ]}) ∧
  length sample_restaurants = Nat.min (length sample_places) 3.
Proof.
  refine (proj1 (findTopRestaurants_first_three sample_maps_env "Chennai" "Idli"
                   "AIzaSyExample" {[ "results" := PList sample_places ]}
                   sample_places _ _ _) _ _);
    [reflexivity | reflexivity | reflexivity | discriminate |].
  repeat constructor; eexists; (split; [reflexivity |]);
    first [ left; reflexivity | right; eexists; reflexivity ].
Defined.

(** ** The weather summary *)

Lemma slot_summary_holds (forecast value : pyval) :
  slot_summary forecast = Return value → slot_holds (Some forecast) value.
Proof.
  unfold slot_summary, slot_holds, temperature_of, condition_of.
  destruct (getitem_str forecast "main") as [main | e]; [| discriminate].
  cbn [obind].
  destruct (getitem_str main "temp") as [temp | e]; [| discriminate].
  cbn [obind].
  destruct (py_round temp) as [rounded | e] eqn:Hround; [| discriminate].
  cbn [obind].
  destruct (getitem_str forecast "weather") as [weather | e]; [| discriminate].
  cbn [obind]. destruct (getitem_0 weather) as [first | e]; [| discriminate].
  cbn [obind].
  destruct (getitem_str first "description") as [description | e];
    [| discriminate].
  cbn [obind]. intros <-%Return_inj. by exists temp, rounded, description.
Qed.

(** Filling a slot that still holds [None]. *)
Lemma fill_slot_Return (key : string) (now : datetime) (lo hi : Z)
    (items : list pyval) (times : list datetime)
    (result result' : gmap string pyval) :
  Forall (λ forecast, truthy forecast = true) items →
  result !! key = Some PNone →
  fill_slot key (slot_final now lo hi (zip items times) PNone) result
  = Return result' →
  ∃ value, slot_holds (first_in_window now lo hi (zip items times)) value ∧
           result' = <[key := value]> result.
Proof.
  intros Htrue Hkey. unfold slot_final.
  change (truthy PNone) with false. cbv iota.
  destruct (first_in_window now lo hi (zip items times)) as [forecast |] eqn:Hfirst;
    cbn [default]; unfold fill_slot.
  - apply first_in_window_elem in Hfirst.
    rewrite Forall_forall in Htrue. unfold id.
    rewrite (Htrue forecast Hfirst).
    destruct (slot_summary forecast) as [summary | e] eqn:Hsum; [| discriminate].
    cbn [obind]. intros [= <-]. exists summary.
    split; [by apply slot_summary_holds | done].
  - unfold id. cbn [truthy]. intros [= <-]. exists PNone. split; [done |].
    by rewrite insert_id.
Qed.

Lemma forecast_times_truthy (offset : Z → Z) (items : list pyval)
    (times : list datetime) :
  Forall2 (λ forecast t, forecast_time offset forecast = Return t) items times →
  Forall (λ forecast, truthy forecast = true) items.
Proof.
  induction 1 as [| forecast t items times Ht _ IH]; constructor; [| done].
  by eapply forecast_time_truthy.
Qed.

(** What [summarise] returns: the empty dictionary, or the four keys with
    each slot holding what its window chose. *)
Lemma summarise_Return (offset : Z → Z) (now : datetime)
    (forecastData v : pyval) :
  summarise offset now forecastData = Return v →
  v = PDict ∅ ∨
  ∃ cityName items times morning lunch evening,
    city_name forecastData = Return cityName ∧
    forecast_entries forecastData = Return items ∧
    Forall2 (λ forecast t, forecast_time offset forecast = Return t)
            items times ∧
    slot_holds (first_in_window now 7 12 (zip items times)) morning ∧
    slot_holds (first_in_window now 12 17 (zip items times)) lunch ∧
    slot_holds (first_in_window now 18 23 (zip items times)) evening ∧
    v = PDict (weather_dict cityName morning lunch evening).
Proof.
  unfold summarise, city_name, forecast_entries.
  destruct (py_get forecastData "cod" PNone) as [cod | e]; [| discriminate].
  cbn [obind]. destruct (ne_200 cod); [intros <-%Return_inj; by left |].
  destruct (getitem_str forecastData "city") as [city | e]; [| discriminate].
  cbn [obind].
  destruct (getitem_str city "name") as [cityName | e]; [| discriminate].
  cbn [obind].
  destruct (getitem_str forecastData "list") as [forecasts | e];
    [| discriminate].
  cbn [obind]. destruct (py_iter forecasts) as [items | e]; [| discriminate].
  cbn [obind].
  destruct (forecast_loop offset now items (Slots PNone PNone PNone))
    as [st | e] eqn:Hloop; [| discriminate].
  cbn [obind].
  destruct (forecast_loop_Return _ _ _ _ _ Hloop)
    as (times & Htimes & -> & -> & ->).
  cbn [todayMorningForecast todayLunchForecast todayEveningForecast].
  pose proof (forecast_times_truthy _ _ _ Htimes) as Htrue.
  destruct (fill_slot "morning" _ _) as [r1 | e] eqn:H1; [| discriminate].
  apply fill_slot_Return in H1 as (morning & Hm & ->); [| done | done].
  cbn [obind].
  destruct (fill_slot "lunch" _ _) as [r2 | e] eqn:H2; [| discriminate].
  apply fill_slot_Return in H2 as (lunch & Hl & ->); [| done | done].
  cbn [obind].
  destruct (fill_slot "evening" _ _) as [r3 | e] eqn:H3; [| discriminate].
  apply fill_slot_Return in H3 as (evening & He & ->); [| done | done].
  cbn [obind]. intros <-%Return_inj. right.
  exists cityName, items, times, morning, lunch, evening.
  repeat (split; [done |]). reflexivity.
Qed.

(** What [getWeatherDetails] returns is an [error] dictionary or what
    [summarise] made of a decoded body. *)
Lemma getWeatherDetails_Return (E : env) (city : string) (v : pyval) :
  (getWeatherDetails E city).2 = Return v →
  (∃ message, v = error_dict message) ∨
  (∃ forecastData, decoded_body E city forecastData ∧
                   summarise (utcoffset E) (now E) forecastData = Return v).
Proof.
  destruct (OPENWEATHER_API_KEY E) as [key |] eqn:Hkey.
  - rewrite (getWeatherDetails_key_set E city key Hkey). cbn [snd].
    assert (∀ e, try_except (Raise e) weather_handler = Return v →
                 ∃ message, v = error_dict message) as Hhandled.
    { intros e. cbn [try_except].
      destruct (weather_handler_error e) as [message ->].
      intros <-%Return_inj. eauto. }
    destruct (requests_get E (weather_url key city)) as [r | e] eqn:Hget;
      cbn [obind]; [| left; eauto].
    destruct (raise_for_status r) as [[] | e] eqn:Hstatus;
      cbn [obind]; [| left; eauto].
    destruct (json r) as [forecastData | e] eqn:Hjson;
      cbn [obind]; [| left; eauto].
    destruct (summarise _ _ forecastData) as [v' | e] eqn:Hsum;
      [| left; eauto].
    cbn [try_except]. intros <-%Return_inj. right.
    exists forecastData. split; [| done]. by exists key, r.
  - unfold getWeatherDetails, io_bind, lift. rewrite Hkey. discriminate.
Qed.

Lemma weather_dict_dom (cityName morning lunch evening : pyval) :
  dom (weather_dict cityName morning lunch evening)
  = {[ "city"; "morning"; "lunch"; "evening" ]}.
Proof.
  unfold weather_dict. rewrite !dom_insert_L, dom_singleton_L. set_solver.
Qed.

(** The success path: a returned dictionary that is neither empty nor an
    [error] is the summary of a decoded body. *)
Lemma getWeatherDetails_success (E : env) (city : string)
    (d : gmap string pyval) :
  (getWeatherDetails E city).2 = Return (PDict d) →
  d ≠ ∅ → "error" ∉ dom d →
  ∃ forecastData cityName items times morning lunch evening,
    decoded_body E city forecastData ∧
    city_name forecastData = Return cityName ∧
    forecast_entries forecastData = Return items ∧
    Forall2 (λ forecast t, forecast_time (utcoffset E) forecast = Return t)
            items times ∧
    slot_holds (first_in_window (now E) 7 12 (zip items times)) morning ∧
    slot_holds (first_in_window (now E) 12 17 (zip items times)) lunch ∧
    slot_holds (first_in_window (now E) 18 23 (zip items times)) evening ∧
    d = weather_dict cityName morning lunch evening.
Proof.
  intros Hrun Hne Herr.
  destruct (getWeatherDetails_Return E city _ Hrun)
    as [[message Hmsg] | (forecastData & Hbody & Hsum)].
  - exfalso. apply Herr. by apply (error_dict_dom message).
  - destruct (summarise_Return _ _ _ _ Hsum)
      as [Hempty | (cityName & items & times & m & l & e & Hc & Hi & Ht
                    & Hm & Hl & He & Hd)].
    + by apply PDict_inj in Hempty.
    + apply PDict_inj in Hd.
      by exists forecastData, cityName, items, times, m, l, e.
Qed.

Lemma in_window_spec (now : datetime) (lo hi : Z) (t : datetime) :
  in_window now lo hi t = true ↔
  (now < t ∧ t < now + 24 * 3600 * 1000000) ∧ (lo ≤ hour t ∧ hour t < hi).
Proof.
  unfold in_window. rewrite !andb_true_iff, !Z.ltb_lt, Z.leb_le.
  unfold timedelta_24h, us_per_hour, us_per_second. tauto.
Qed.

Lemma slot_holds_shape (chosen : option pyval) (value : pyval) :
  slot_holds chosen value →
  value = PNone ∨
  ∃ rounded condition,
    value = PDict {[ "temperatureInCelsius" := PInt rounded;
                     "condition" := condition ]}.
Proof.
  destruct chosen as [forecast |]; simpl; [| by left].
  intros (temp & rounded & condition & _ & _ & _ & ->). right. eauto.
Qed.

(** C3. On the success path (a returned dictionary that is neither empty
    nor an [error]), the entries of the forecast list all have a readable
    time, and each of the slots [morning], [lunch] and [evening] holds what
    the first entry, in list order, of its window gives: the entry must lie
    strictly after [now] and strictly before [now] plus 24 hours, at a
    local hour of [7,12), [12,17) or [18,23); the slot then holds the
    rounded temperature (an integer) and the condition of that entry, and
    [None] when no entry falls in the window.  The three windows are
    disjoint, and the hours 17 and 23 belong to none. *)
Theorem forecast_windows (E : env) (city : string) (d : gmap string pyval) :
  (getWeatherDetails E city).2 = Return (PDict d) →
  d ≠ ∅ → "error" ∉ dom d →
  (∃ forecastData cityName items times morning lunch evening,
     decoded_body E city forecastData ∧
     forecast_entries forecastData = Return items ∧
     Forall2 (λ forecast t, forecast_time (utcoffset E) forecast = Return t)
             items times ∧
     slot_holds (first_in_window (now E) 7 12 (zip items times)) morning ∧
     slot_holds (first_in_window (now E) 12 17 (zip items times)) lunch ∧
     slot_holds (first_in_window (now E) 18 23 (zip items times)) evening ∧
     d = {[ "city" := cityName; "morning" := morning; "lunch" := lunch;
            "evening" := evening ]}) ∧
  (∀ lo hi t,
     in_window (now E) lo hi t = true ↔
     (now E < t ∧ t < now E + 24 * 3600 * 1000000) ∧
     (lo ≤ hour t ∧ hour t < hi)) ∧
  (∀ t, in_window (now E) 7 12 t && in_window (now E) 12 17 t = false ∧
        in_window (now E) 7 12 t && in_window (now E) 18 23 t = false ∧
        in_window (now E) 12 17 t && in_window (now E) 18 23 t = false) ∧
  (∀ t, hour t = 17 ∨ hour t = 23 →
        in_window (now E) 7 12 t = false ∧
        in_window (now E) 12 17 t = false ∧
        in_window (now E) 18 23 t = false).
Proof.
  intros Hrun Hne Herr. split; [| split; [| split]].
  - destruct (getWeatherDetails_success E city d Hrun Hne Herr)
      as (forecastData & cityName & items & times & m & l & e
          & Hbody & _ & Hitems & Htimes & Hm & Hl & He & ->).
    by exists forecastData, cityName, items, times, m, l, e.
  - intros lo hi t. apply in_window_spec.
  - intros t. repeat split; apply not_true_iff_false;
      rewrite andb_true_iff, !in_window_spec; lia.
  - intros t Hhour. repeat split; apply not_true_iff_false;
      rewrite in_window_spec; lia.
Qed.

Lemma sample_run :
  (getWeatherDetails sample_env "Chennai").2 = Return (PDict sample_summary).
Proof. vm_compute. reflexivity. Qed.

Lemma sample_summary_success :
  sample_summary ≠ ∅ ∧ "error" ∉ dom sample_summary.
Proof.
  split.
  - intros H. apply (f_equal (λ m : gmap string pyval, m !! "city")) in H.
    vm_compute in H. discriminate.
  - rewrite elem_of_dom. intros [v Hv]. vm_compute in Hv. discriminate.
Qed.

Lemma forecast_windows_witness :
  ∃ forecastData cityName items times morning lunch evening,
    decoded_body sample_env "Chennai" forecastData ∧
    forecast_entries forecastData = Return items ∧
    Forall2 (λ forecast t, forecast_time ist forecast = Return t)
            items times ∧
    slot_holds (first_in_window (now sample_env) 7 12 (zip items times)) morning ∧
    slot_holds (first_in_window (now sample_env) 12 17 (zip items times)) lunch ∧
    slot_holds (first_in_window (now sample_env) 18 23 (zip items times)) evening ∧
    sample_summary
    = {[ "city" := cityName; "morning" := morning; "lunch" := lunch;
         "evening" := evening ]}.
Proof.
  exact (proj1 (forecast_windows sample_env "Chennai" sample_summary
                  sample_run (proj1 sample_summary_success)
                  (proj2 sample_summary_success))).
Defined.

(** C8. A returned dictionary that is neither empty nor an [error] has
    exactly the four keys [city], [morning], [lunch] and [evening]; each of
    the three slots is present, holding [None] or a dictionary of a
    temperature and a condition, and it holds [None] when no entry of the
    forecast falls in its window. *)
Theorem weather_summary_four_keys (E : env) (city : string)
    (d : gmap string pyval) :
  (getWeatherDetails E city).2 = Return (PDict d) →
  d ≠ ∅ → "error" ∉ dom d →
  dom d = {[ "city"; "morning"; "lunch"; "evening" ]} ∧
  (∀ slot, slot ∈ ["morning"; "lunch"; "evening"] →
     ∃ value, d !! slot = Some value ∧
              (value = PNone ∨
               ∃ rounded condition,
                 value = PDict {[ "temperatureInCelsius" := PInt rounded;
                                  "condition" := condition ]})) ∧
  (∃ forecastData items times,
     decoded_body E city forecastData ∧
     forecast_entries forecastData = Return items ∧
     Forall2 (λ forecast t, forecast_time (utcoffset E) forecast = Return t)
             items times ∧
     (first_in_window (now E) 7 12 (zip items times) = None →
      d !! "morning" = Some PNone) ∧
     (first_in_window (now E) 12 17 (zip items times) = None →
      d !! "lunch" = Some PNone) ∧
     (first_in_window (now E) 18 23 (zip items times) = None →
      d !! "evening" = Some PNone)).
Proof.
  intros Hrun Hne Herr.
  destruct (getWeatherDetails_success E city d Hrun Hne Herr)
    as (forecastData & cityName & items & times & m & l & e
        & Hbody & _ & Hitems & Htimes & Hm & Hl & He & ->).
  assert (weather_dict cityName m l e !! "morning" = Some m) as Hkm
    by reflexivity.
  assert (weather_dict cityName m l e !! "lunch" = Some l) as Hkl
    by reflexivity.
  assert (weather_dict cityName m l e !! "evening" = Some e) as Hke
    by reflexivity.
  split; [apply weather_dict_dom |]. split.
  - intros slot Hslot.
    repeat (apply elem_of_cons in Hslot as [-> | Hslot]);
      [ exists m | exists l | exists e | by apply elem_of_nil in Hslot ];
      (split; [done |]); by eapply slot_holds_shape.
  - exists forecastData, items, times. repeat (split; [done |]).
    rewrite Hkm, Hkl, Hke.
    repeat split; intros Hnone.
    + rewrite Hnone in Hm. simpl in Hm. by rewrite Hm.
    + rewrite Hnone in Hl. simpl in Hl. by rewrite Hl.
    + rewrite Hnone in He. simpl in He. by rewrite He.
Qed.

Lemma weather_summary_four_keys_witness :
  dom sample_summary = {[ "city"; "morning"; "lunch"; "evening" ]} ∧
  sample_summary !! "evening" = Some PNone.
Proof.
  split.
  - exact (proj1 (weather_summary_four_keys sample_env "Chennai" sample_summary
                    sample_run (proj1 sample_summary_success)
                    (proj2 sample_summary_success))).
  - reflexivity.
Defined.

(** * Further properties of the tools *)

(** ** getWeatherDetails *)

Lemma fill_slot_other (key other : string) (chosen v : pyval)
    (result result' : gmap string pyval) :
  key ≠ other →
  fill_slot key chosen result = Return result' →
  result !! other = Some v → result' !! other = Some v.
Proof.
  intros Hne. unfold fill_slot. destruct (truthy chosen).
  - destruct (slot_summary chosen) as [s | e]; [| discriminate].
    cbn [obind]. intros [= <-] Hother. by rewrite lookup_insert_ne.
  - by intros [= <-].
Qed.

(** With [cod] equal to the string 200 the summary is never empty. *)
Lemma summarise_200_not_empty (offset : Z → Z) (now : datetime)
    (body : gmap string pyval) (v : pyval) :
  body !! "cod" = Some (PStr "200") →
  summarise offset now (PDict body) = Return v → v ≠ PDict ∅.
Proof.
  intros Hcod. unfold summarise. cbn [py_get obind]. rewrite Hcod.
  cbn [default ne_200 String.eqb negb]. unfold id.
  change (ne_200 (PStr "200")) with false. cbv iota.
  destruct (getitem_str (PDict body) "city") as [city | e]; [| discriminate].
  cbn [obind].
  destruct (getitem_str city "name") as [cityName | e]; [| discriminate].
  cbn [obind].
  destruct (getitem_str (PDict body) "list") as [forecasts | e];
    [| discriminate].
  cbn [obind]. destruct (py_iter forecasts) as [items | e]; [| discriminate].
  cbn [obind].
  destruct (forecast_loop offset now items _) as [st | e]; [| discriminate].
  cbn [obind].
  destruct (fill_slot "morning" _ _) as [r1 | e] eqn:H1; [| discriminate].
  cbn [obind].
  destruct (fill_slot "lunch" _ _) as [r2 | e] eqn:H2; [| discriminate].
  cbn [obind].
  destruct (fill_slot "evening" _ _) as [r3 | e] eqn:H3; [| discriminate].
  cbn [obind]. intros <-%Return_inj Hempty%PDict_inj.
  assert (r3 !! "city" = Some cityName) as Hcity.
  { eapply (fill_slot_other "evening" "city"); [done | exact H3 |].
    eapply (fill_slot_other "lunch" "city"); [done | exact H2 |].
    eapply (fill_slot_other "morning" "city"); [done | exact H1 |].
    reflexivity. }
  by rewrite Hempty, lookup_empty in Hcity.
Qed.

(** Behind a decoded body, the call is [summarise] under the handler. *)
Lemma getWeatherDetails_decoded (E : env) (city : string) (forecastData : pyval) :
  decoded_body E city forecastData →
  (getWeatherDetails E city).2
  = try_except (summarise (utcoffset E) (now E) forecastData) weather_handler.
Proof.
  intros (key & r & Hkey & Hget & Hstatus & Hjson).
  rewrite (getWeatherDetails_key_set E city key Hkey). cbn [snd].
  rewrite Hget. cbn [obind]. rewrite Hstatus. cbn [obind].
  by rewrite Hjson.
Qed.

Lemma try_except_weather (body : outcome pyval) :
  (∃ v, body = Return v ∧ try_except body weather_handler = Return v) ∨
  (∃ e message, body = Raise e ∧
                try_except body weather_handler = Return (error_dict message)).
Proof.
  destruct body as [v | e]; [left; eauto |]. right. cbn [try_except].
  destruct (weather_handler_error e) as [message ->]. eauto.
Qed.

(** X1. With the key set, a call makes exactly one GET, at the URL built
    from the key and the city, and returns a dictionary of one of three
    shapes: empty, the single key [error], or the four keys of a summary. *)
Theorem weather_result_shapes (E : env) (city key : string) :
  OPENWEATHER_API_KEY E = Some key →
  ∃ d, getWeatherDetails E city
       = ([HttpGet (weather_url key city)], Return (PDict d)) ∧
       (d = ∅ ∨ (∃ message, d = {[ "error" := PStr message ]}) ∨
        dom d = weather_keys).
Proof.
  intros Hkey.
  destruct (proj1 (getWeatherDetails_key_set_returns E city key Hkey))
    as [v Hv].
  assert ((getWeatherDetails E city).1 = [HttpGet (weather_url key city)])
    as Htrace by (by rewrite (getWeatherDetails_key_set E city key Hkey)).
  assert (∃ d, v = PDict d ∧
               (d = ∅ ∨ (∃ message, d = {[ "error" := PStr message ]}) ∨
                dom d = weather_keys)) as (d & -> & Hshape).
  { destruct (getWeatherDetails_Return E city v Hv)
      as [[message ->] | (forecastData & _ & Hsum)].
    - eexists. split; [reflexivity |]. right. left. eauto.
    - destruct (summarise_Return _ _ _ _ Hsum)
        as [-> | (c & items & times & m & l & e & _ & _ & _ & _ & _ & _ & ->)].
      + exists ∅. by split; [| left].
      + eexists. split; [reflexivity |]. right. right.
        apply weather_dict_dom. }
  exists d. split; [| done].
  destruct (getWeatherDetails E city) as [tr res]. cbn [fst snd] in *.
  by subst.
Qed.

Lemma weather_result_shapes_witness :
  ∃ d, getWeatherDetails sample_env "Chennai"
       = ([HttpGet (weather_url "0123" "Chennai")], Return (PDict d)) ∧
       (d = ∅ ∨ (∃ message, d = {[ "error" := PStr message ]}) ∨
        dom d = weather_keys).
Proof. apply (weather_result_shapes sample_env "Chennai" "0123"). reflexivity. Defined.

(** X2. A response with a status from 400 to 599 is reported as a failure
    to connect, with the status, the reason and the URL in the text,
    whatever its body holds: the body is not read. *)
Theorem http_error_status_reported (E : env) (city key : string) (r : response) :
  OPENWEATHER_API_KEY E = Some key →
  requests_get E (weather_url key city) = Return r →
  400 ≤ status_code r < 600 →
  (getWeatherDetails E city).2
  = Return (error_dict
      ("Error connecting to Weather Service: "
       +:+ pretty (status_code r)
       +:+ (if status_code r <? 500 then " Client Error: "
            else " Server Error: ")
       +:+ reason r +:+ " for url: " +:+ url r)).
Proof.
  intros Hkey Hget Hstatus.
  rewrite (getWeatherDetails_key_set E city key Hkey). cbn [snd].
  rewrite Hget. cbn [obind]. unfold raise_for_status.
  rewrite (proj2 (Z.leb_le 400 (status_code r))) by lia. cbn [andb].
  destruct (status_code r <? 500) eqn:Hlt; [reflexivity |].
  apply Z.ltb_ge in Hlt.
  rewrite (proj2 (Z.leb_le 500 (status_code r))) by lia.
  rewrite (proj2 (Z.ltb_lt (status_code r) 600)) by lia.
  reflexivity.
Qed.

Lemma http_error_status_reported_witness :
  (getWeatherDetails
     (Env (Some "0123") None 0 (λ _, 0)
          (λ u, Return (Response 503 "Service Unavailable" u
                          (Return sample_forecast)))
          (λ _ _, Return (PDict ∅)))
     "Chennai").2
  = Return (error_dict
      "Error connecting to Weather Service: 503 Server Error: Service Unavailable for url: http://api.openweathermap.org/data/2.5/forecast?appid=0123&q=Chennai&units=metric").
Proof.
  refine (http_error_status_reported
    (Env (Some "0123") None 0 (λ _, 0)
         (λ u, Return (Response 503 "Service Unavailable" u
                         (Return sample_forecast)))
         (λ _ _, Return (PDict ∅)))
    "Chennai" "0123"
    (Response 503 "Service Unavailable" (weather_url "0123" "Chennai")
              (Return sample_forecast)) _ _ _);
    [reflexivity | reflexivity | cbn; lia].
Defined.

(** X3. Behind a decoded body, the empty dictionary is returned exactly
    when the body is an object whose [cod] is not the string 200 (a missing
    [cod], or the integer 200, included). *)
Theorem empty_result_iff (E : env) (city : string) (forecastData : pyval) :
  decoded_body E city forecastData →
  (getWeatherDetails E city).2 = Return (PDict ∅) ↔
  ∃ body, forecastData = PDict body ∧ body !! "cod" ≠ Some (PStr "200").
Proof.
  intros Hbody. rewrite (getWeatherDetails_decoded E city _ Hbody). split.
  - intros Hrun.
    destruct (try_except_weather (summarise (utcoffset E) (now E) forecastData))
      as [(v & Hsum & Hv) | (e & message & _ & Hv)]; rewrite Hv in Hrun.
    + apply Return_inj in Hrun as ->.
      destruct forecastData as [| | | | | | body]; try discriminate.
      exists body. split; [done |]. intros Hcod.
      by apply (summarise_200_not_empty _ _ _ _ Hcod Hsum).
    + apply Return_inj in Hrun. by apply error_dict_not_empty in Hrun.
  - intros (body & -> & Hcod). unfold summarise. cbn [py_get obind].
    assert (ne_200 (default PNone (body !! "cod")) = true) as ->; [| done].
    destruct (body !! "cod") as [cod |]; [| done]. cbn [default]. unfold id.
    apply ne_200_true. congruence.
Qed.

Lemma empty_result_iff_witness :
  (getWeatherDetails
     (Env (Some "0123") None 0 (λ _, 0)
          (λ u, Return (Response 200 "OK" u
                          (Return (PDict {[ "cod" := PInt 200 ]}))))
          (λ _ _, Return (PDict ∅)))
     "Chennai").2 = Return (PDict ∅).
Proof.
  refine (proj2 (empty_result_iff _ "Chennai" (PDict {[ "cod" := PInt 200 ]}) _) _).
  - exists "0123", (Response 200 "OK" (weather_url "0123" "Chennai")
                             (Return (PDict {[ "cod" := PInt 200 ]}))).
    repeat split; reflexivity.
  - eexists. split; [reflexivity |]. discriminate.
Defined.

Lemma summarise_200 (offset : Z → Z) (now : datetime)
    (body : gmap string pyval) :
  body !! "cod" = Some (PStr "200") →
  summarise offset now (PDict body)
  = (let* city := getitem_str (PDict body) "city" in
     let* cityName := getitem_str city "name" in
     let* forecasts := getitem_str (PDict body) "list" in
     let* items := py_iter forecasts in
     let* st := forecast_loop offset now items (Slots PNone PNone PNone) in
     let* result := fill_slot "morning" (todayMorningForecast st)
                      (weather_dict cityName PNone PNone PNone) in
     let* result := fill_slot "lunch" (todayLunchForecast st) result in
     let* result := fill_slot "evening" (todayEveningForecast st) result in
     Return (PDict result)).
Proof.
  intros Hcod. unfold summarise. cbn [py_get obind]. by rewrite Hcod.
Qed.

(** X4. A body with [cod] 200 that lacks [city], or that lacks [list], is
    reported by the [KeyError] clause, which names the missing key. *)
Theorem missing_key_reported (E : env) (city : string)
    (body : gmap string pyval) :
  decoded_body E city (PDict body) →
  body !! "cod" = Some (PStr "200") →
  (body !! "city" = None →
   (getWeatherDetails E city).2
   = Return (error_dict
       "Unexpected data format from weather service. Missing key: 'city'")) ∧
  (∀ c name, body !! "city" = Some (PDict c) → c !! "name" = Some name →
             body !! "list" = None →
   (getWeatherDetails E city).2
   = Return (error_dict
       "Unexpected data format from weather service. Missing key: 'list'")).
Proof.
  intros Hbody Hcod. rewrite (getWeatherDetails_decoded E city _ Hbody).
  rewrite (summarise_200 _ _ _ Hcod). split.
  - intros Hcity. cbn [getitem_str]. by rewrite Hcity.
  - intros c name Hcity Hname Hlist. cbn [getitem_str]. rewrite Hcity.
    cbn [obind getitem_str]. rewrite Hname. cbn [obind]. by rewrite Hlist.
Qed.

Lemma missing_key_reported_witness :
  (getWeatherDetails
     (Env (Some "0123") None 0 (λ _, 0)
          (λ u, Return (Response 200 "OK" u
                          (Return (PDict {[ "cod" := PStr "200" ]}))))
          (λ _ _, Return (PDict ∅)))
     "Chennai").2
  = Return (error_dict
      "Unexpected data format from weather service. Missing key: 'city'").
Proof.
  refine (proj1 (missing_key_reported _ "Chennai" {[ "cod" := PStr "200" ]} _ _) _).
  - exists "0123", (Response 200 "OK" (weather_url "0123" "Chennai")
                             (Return (PDict {[ "cod" := PStr "200" ]}))).
    repeat split; reflexivity.
  - reflexivity.
  - reflexivity.
Defined.

(** X5. A body that decodes to anything but an object (a list, a string, a
    number, [null]) is reported by the last clause: the call of [get] on
    it raises [AttributeError]. *)
Theorem non_object_body_reported (E : env) (city : string)
    (forecastData : pyval) :
  decoded_body E city forecastData →
  (∀ body, forecastData ≠ PDict body) →
  (getWeatherDetails E city).2
  = Return (error_dict
      ("Unexpected Error '" +:+ type_name forecastData
       +:+ "' object has no attribute 'get'")).
Proof.
  intros Hbody Hnot. rewrite (getWeatherDetails_decoded E city _ Hbody).
  destruct forecastData as [| | | | | | body]; try reflexivity.
  by destruct (Hnot body).
Qed.

Lemma non_object_body_reported_witness :
  (getWeatherDetails
     (Env (Some "0123") None 0 (λ _, 0)
          (λ u, Return (Response 200 "OK" u (Return (PList []))))
          (λ _ _, Return (PDict ∅)))
     "Chennai").2
  = Return (error_dict "Unexpected Error 'list' object has no attribute 'get'").
Proof.
  refine (non_object_body_reported _ "Chennai" (PList []) _ _).
  - exists "0123", (Response 200 "OK" (weather_url "0123" "Chennai")
                             (Return (PList []))).
    repeat split; reflexivity.
  - discriminate.
Defined.

(** X6. One entry of the list whose time cannot be read (no [dt], a [dt]
    that is no number, a date out of range) makes the whole call return an
    [error] dictionary, wherever the entry stands and whether or not it
    would fall in a window: there is no partial summary. *)
Theorem unreadable_entry_fails_call (E : env) (city : string)
    (body : gmap string pyval) (items : list pyval) (forecast : pyval)
    (e : exn) :
  decoded_body E city (PDict body) →
  body !! "cod" = Some (PStr "200") →
  forecast_entries (PDict body) = Return items →
  forecast ∈ items →
  forecast_time (utcoffset E) forecast = Raise e →
  ∃ message, (getWeatherDetails E city).2 = Return (error_dict message).
Proof.
  intros Hbody Hcod Hitems Hin Hraise.
  rewrite (getWeatherDetails_decoded E city _ Hbody).
  destruct (try_except_weather
              (summarise (utcoffset E) (now E) (PDict body)))
    as [(v & Hsum & _) | (e' & message & _ & Hv)]; [| eauto].
  exfalso.
  destruct (summarise_Return _ _ _ _ Hsum)
    as [-> | (c & items' & times & _ & _ & _ & _ & Hitems' & Htimes & _)].
  - by apply (summarise_200_not_empty _ _ _ _ Hcod Hsum).
  - rewrite Hitems in Hitems'. apply Return_inj in Hitems' as <-.
    apply list_elem_of_lookup in Hin as [i Hi].
    destruct (Forall2_lookup_l _ _ _ _ _ Htimes Hi) as (t & _ & Ht).
    congruence.
Qed.

Lemma unreadable_entry_fails_call_witness :
  ∃ message,
    (getWeatherDetails
       (Env (Some "0123") None 0 (λ _, 0)
            (λ u, Return (Response 200 "OK" u
               (Return (PDict {[ "cod" := PStr "200";
                                 "city" := PDict {[ "name" := PStr "Chennai" ]};
                                 "list" := PList [PDict {[ "main" := PNone ]}] ]}))))
            (λ _ _, Return (PDict ∅)))
       "Chennai").2 = Return (error_dict message).
Proof.
  refine (unreadable_entry_fails_call _ "Chennai"
            {[ "cod" := PStr "200";
               "city" := PDict {[ "name" := PStr "Chennai" ]};
               "list" := PList [PDict {[ "main" := PNone ]}] ]}
            [PDict {[ "main" := PNone ]}] (PDict {[ "main" := PNone ]})
            (Exn KeyError "'dt'") _ _ _ _ _).
  - eexists "0123", (Response 200 "OK" (weather_url "0123" "Chennai") _).
    repeat split; reflexivity.
  - reflexivity.
  - reflexivity.
  - apply list_elem_of_here.
  - reflexivity.
Defined.

Lemma localtime_in_range (offset : Z → Z) (t : Z) :
  -62135596800 ≤ t + offset t ≤ 253402300799 →
  localtime offset t = Return (t + offset t).
Proof.
  intros [Hlo Hhi]. unfold localtime. cbv zeta.
  rewrite (proj2 (Z.leb_le _ _) Hlo), (proj2 (Z.leb_le _ _) Hhi). reflexivity.
Qed.

Lemma complete_entry_time (offset : Z → Z) (forecast : pyval) :
  offset_within_a_day offset →
  complete_entry forecast →
  ∃ t, forecast_time offset forecast = Return t.
Proof.
  intros Hoff
    (d & dt & main & temp & w & rest & description & -> & Hdt & Hrange & _).
  unfold forecast_time. cbn [getitem_str]. rewrite Hdt. cbn [obind].
  unfold fromtimestamp. cbn [timestamp_parts obind fst snd].
  rewrite (proj2 (Z.leb_le (- 2 ^ 63) dt)) by lia.
  rewrite (proj2 (Z.ltb_lt dt (2 ^ 63))) by lia. cbn [andb].
  unfold max_fold_seconds.
  pose proof (Hoff dt) as H0. pose proof (Hoff (dt - 24 * 3600)) as H1.
  rewrite (localtime_in_range offset dt) by lia. cbn [obind].
  rewrite (localtime_in_range offset (dt - 24 * 3600)) by lia. cbn [obind].
  cbv zeta.
  set (transition := dt + offset dt - (dt - 24 * 3600 + offset (dt - 24 * 3600))
                     - 24 * 3600).
  destruct (transition <? 0) eqn:Hdown; [| cbn [obind]; eauto].
  apply Z.ltb_lt in Hdown.
  pose proof (Hoff (dt + transition)) as H2.
  rewrite (localtime_in_range offset (dt + transition))
    by (subst transition; lia).
  cbn [obind]. eauto.
Qed.

Lemma numeric_round (temp : pyval) :
  numeric temp → ∃ rounded, py_round temp = Return rounded.
Proof.
  destruct temp as [| b | z | [s | s | | s m e] | | |]; simpl; try done; eauto.
Qed.

Lemma complete_entry_summary (forecast : pyval) :
  complete_entry forecast →
  ∃ summary, slot_summary forecast = Return summary.
Proof.
  intros (d & dt & main & temp & w & rest & description & -> & _ & _
          & Hmain & Htemp & Hnum & Hweather & Hdesc).
  unfold slot_summary. cbn [getitem_str]. rewrite Hmain. cbn [obind getitem_str].
  rewrite Htemp. cbn [obind].
  destruct (numeric_round temp Hnum) as [rounded ->]. cbn [obind].
  rewrite Hweather. cbn [obind getitem_0 getitem_str]. rewrite Hdesc.
  cbn [obind]. eauto.
Qed.

Lemma forecast_loop_complete (offset : Z → Z) (now : datetime)
    (items : list pyval) (st : slots) :
  offset_within_a_day offset →
  now + timedelta_24h ≤ datetime_max →
  Forall complete_entry items →
  ∃ st', forecast_loop offset now items st = Return st'.
Proof.
  intros Hoff Hnow Hall. revert st.
  induction Hall as [| forecast rest Hentry _ IH]; intros st; simpl; [eauto |].
  destruct (complete_entry_time offset forecast Hoff Hentry) as [t Ht].
  unfold loop_body. rewrite Ht. cbn [obind]. unfold within_24h, add_24h.
  rewrite (proj2 (Z.leb_le _ _) Hnow).
  destruct (now <? t); cbn [obind]; [destruct (t <? now + timedelta_24h) |];
    cbn [obind]; apply IH.
Qed.

Lemma fill_slot_complete (key : string) (now : datetime)
    (lo hi : Z) (items : list pyval) (times : list datetime)
    (result : gmap string pyval) :
  Forall complete_entry items →
  ∃ result',
    fill_slot key (slot_final now lo hi (zip items times) PNone) result
    = Return result'.
Proof.
  intros Hall. unfold slot_final. change (truthy PNone) with false. cbv iota.
  destruct (first_in_window now lo hi (zip items times)) as [forecast |] eqn:Hfirst;
    cbn [default]; unfold id, fill_slot.
  - apply first_in_window_elem in Hfirst.
    rewrite Forall_forall in Hall.
    destruct (complete_entry_summary forecast (Hall _ Hfirst))
      as [summary ->].
    destruct (truthy forecast); cbn [obind]; eauto.
  - cbn [truthy]. eauto.
Qed.

(** X7. A body of the expected shape always gives a summary, never an
    [error]: in a zone whose offset stays within a day of UTC, with [cod]
    200, a city name, and a list whose entries each carry an integer [dt]
    from 0001-01-04 to 9999-12-30, a numeric temperature and a
    description, the call returns the four keys, each slot holding what
    the first entry of its window gives. *)
Theorem complete_forecast_succeeds (E : env) (city : string)
    (body c : gmap string pyval) (cityName : pyval) (items : list pyval) :
  decoded_body E city (PDict body) →
  body !! "cod" = Some (PStr "200") →
  body !! "city" = Some (PDict c) → c !! "name" = Some cityName →
  body !! "list" = Some (PList items) →
  Forall complete_entry items →
  offset_within_a_day (utcoffset E) →
  now E + timedelta_24h ≤ datetime_max →
  ∃ times morning lunch evening,
    Forall2 (λ forecast t, forecast_time (utcoffset E) forecast = Return t)
            items times ∧
    slot_holds (first_in_window (now E) 7 12 (zip items times)) morning ∧
    slot_holds (first_in_window (now E) 12 17 (zip items times)) lunch ∧
    slot_holds (first_in_window (now E) 18 23 (zip items times)) evening ∧
    (getWeatherDetails E city).2
    = Return (PDict (weather_dict cityName morning lunch evening)).
Proof.
  intros Hbody Hcod Hcity Hname Hlist Hall Hoff Hnow.
  rewrite (getWeatherDetails_decoded E city _ Hbody).
  assert (∃ v, summarise (utcoffset E) (now E) (PDict body) = Return v)
    as [v Hsum].
  { rewrite (summarise_200 _ _ _ Hcod). cbn [getitem_str]. rewrite Hcity.
    cbn [obind getitem_str]. rewrite Hname. cbn [obind]. rewrite Hlist.
    cbn [obind py_iter].
    destruct (forecast_loop_complete (utcoffset E) (now E) items
                (Slots PNone PNone PNone) Hoff Hnow Hall) as [st Hloop].
    rewrite Hloop. cbn [obind].
    destruct (forecast_loop_Return _ _ _ _ _ Hloop)
      as (times & _ & -> & -> & ->).
    cbn [todayMorningForecast todayLunchForecast todayEveningForecast].
    destruct (fill_slot_complete "morning" (now E) 7 12 items
                times (weather_dict cityName PNone PNone PNone) Hall)
      as [r1 ->].
    cbn [obind].
    destruct (fill_slot_complete "lunch" (now E) 12 17 items
                times r1 Hall) as [r2 ->].
    cbn [obind].
    destruct (fill_slot_complete "evening" (now E) 18 23 items
                times r2 Hall) as [r3 ->].
    cbn [obind]. eauto. }
  rewrite Hsum. cbn [try_except].
  destruct (summarise_Return _ _ _ _ Hsum)
    as [-> | (cityName' & items' & times & m & l & e & Hc & Hi & Ht
              & Hm & Hl & He & ->)].
  - by destruct (summarise_200_not_empty _ _ _ _ Hcod Hsum).
  - unfold city_name in Hc. cbn [getitem_str] in Hc. rewrite Hcity in Hc.
    cbn [obind getitem_str] in Hc. rewrite Hname in Hc.
    apply Return_inj in Hc as <-.
    unfold forecast_entries in Hi. cbn [getitem_str] in Hi.
    rewrite Hlist in Hi. cbn [obind py_iter] in Hi.
    apply Return_inj in Hi as <-.
    by exists times, m, l, e.
Qed.

Lemma sample_entries_complete : Forall complete_entry sample_entries.
Proof.
  unfold sample_entries, entry.
  repeat constructor;
    (eexists _, _, _, _, _, _, _; split; [reflexivity |];
     split; [reflexivity |]; split; [vm_compute; split; discriminate |];
     split; [reflexivity |]; split; [reflexivity |]; split; [exact I |];
     split; reflexivity).
Qed.

Lemma complete_forecast_succeeds_witness :
  ∃ times morning lunch evening,
    Forall2 (λ forecast t, forecast_time ist forecast = Return t)
            sample_entries times ∧
    slot_holds (first_in_window (now sample_env) 7 12 (zip sample_entries times))
               morning ∧
    slot_holds (first_in_window (now sample_env) 12 17 (zip sample_entries times))
               lunch ∧
    slot_holds (first_in_window (now sample_env) 18 23 (zip sample_entries times))
               evening ∧
    (getWeatherDetails sample_env "Chennai").2
    = Return (PDict (weather_dict (PStr "Chennai") morning lunch evening)).
Proof.
  refine (complete_forecast_succeeds sample_env "Chennai"
            {[ "cod" := PStr "200";
               "city" := PDict {[ "name" := PStr "Chennai" ]};
               "list" := PList sample_entries ]}
            {[ "name" := PStr "Chennai" ]} (PStr "Chennai") sample_entries
            _ _ _ _ _ sample_entries_complete _ _).
  - exists "0123", (Response 200 "OK" (weather_url "0123" "Chennai")
                             (Return sample_forecast)).
    repeat split; reflexivity.
  - reflexivity.
  - reflexivity.
  - reflexivity.
  - reflexivity.
  - intros t. unfold sample_env. cbn [utcoffset]. unfold ist. lia.
  - vm_compute. discriminate.
Defined.

(** X8. The temperature stored for a float reading is the integer nearest
    to it, the even one on a tie (26.5 gives 26, 27.5 gives 28): for the
    reading [v * 2^e], the stored [r] is exact when [e >= 0], and otherwise
    within half a unit, and even when exactly half a unit away. *)
Theorem stored_temperature_nearest (forecast : pyval) (s : bool)
    (m : positive) (e : Z) (d : gmap string pyval) :
  temperature_of forecast = Return (PFloat (S754_finite s m e)) →
  slot_summary forecast = Return (PDict d) →
  ∃ r, d !! "temperatureInCelsius" = Some (PInt r) ∧
       (0 ≤ e → r = cond_Zopp s (Zpos m) * 2 ^ e) ∧
       (e < 0 →
        2 * Z.abs (r * 2 ^ (- e) - cond_Zopp s (Zpos m)) ≤ 2 ^ (- e) ∧
        (2 * Z.abs (r * 2 ^ (- e) - cond_Zopp s (Zpos m)) = 2 ^ (- e) →
         Z.even r = true)).
Proof.
  unfold temperature_of, slot_summary.
  destruct (getitem_str forecast "main") as [main | e0]; [| discriminate].
  cbn [obind]. intros ->. cbn [obind py_round].
  destruct (getitem_str forecast "weather") as [weather | e0]; [| discriminate].
  cbn [obind]. destruct (getitem_0 weather) as [first | e0]; [| discriminate].
  cbn [obind].
  destruct (getitem_str first "description") as [description | e0];
    [| discriminate].
  cbn [obind]. intros <-%Return_inj%PDict_inj.
  exists (round_half_even (cond_Zopp s (Z.pos m)) e).
  split; [reflexivity |]. apply round_half_even_nearest.
Qed.

Lemma stored_temperature_nearest_witness :
  ∃ r, ({[ "temperatureInCelsius" := PInt 26; "condition" := PStr "clear sky" ]}
          : gmap string pyval) !! "temperatureInCelsius" = Some (PInt r) ∧
       (0 ≤ -1 → r = cond_Zopp false 53 * 2 ^ (-1)) ∧
       (-1 < 0 →
        2 * Z.abs (r * 2 ^ (- -1) - cond_Zopp false 53) ≤ 2 ^ (- -1) ∧
        (2 * Z.abs (r * 2 ^ (- -1) - cond_Zopp false 53) = 2 ^ (- -1) →
         Z.even r = true)).
Proof.
  apply (stored_temperature_nearest
           (entry (midnight_utc + 10800) (PFloat (S754_finite false 53 (-1)))
                  "clear sky") false 53 (-1)); reflexivity.
Defined.

(** ** findTopRestaurants *)

(** What the call returns came from the handler or from [top_three]. *)
Lemma findTopRestaurants_Return (E : env) (city dishName : string) (v : pyval) :
  (findTopRestaurants E city dishName).2 = Return v →
  (∃ text, v = maps_error text) ∨
  (∃ places, top_three city dishName places = Return v).
Proof.
  destruct (googlemaps_Client (MAPS_API_KEY E)) as [key | e] eqn:Hkey.
  - rewrite (findTopRestaurants_key_ok E city dishName key Hkey). cbn [snd].
    destruct (gmaps_places E _ _) as [places | e]; cbn [obind try_except].
    + destruct (top_three city dishName places) as [v' | e] eqn:Htop;
        cbn [try_except].
      * intros <-%Return_inj. right. eauto.
      * intros <-%Return_inj. left. by eexists.
    + intros <-%Return_inj. left. by eexists.
  - unfold findTopRestaurants, restaurants_try, io_try, io_bind, lift.
    rewrite Hkey. cbn [fst snd try_except]. intros <-%Return_inj.
    left. by eexists.
Qed.

(** X9. A key the client refuses (unset, empty, or not starting with the
    expected prefix) is reported by the handler without any output or
    search; a search that raises is reported the same way, after one
    print and one search: there is no second attempt. *)
Theorem maps_failures_reported (E : env) (city dishName : string) (e : exn) :
  (googlemaps_Client (MAPS_API_KEY E) = Raise e →
   findTopRestaurants E city dishName = ([], Return (maps_error (exn_str e)))) ∧
  (∀ key, googlemaps_Client (MAPS_API_KEY E) = Return key →
          gmaps_places E (restaurant_query city dishName) "en" = Raise e →
   findTopRestaurants E city dishName
   = ([Print ("---> Searching Google Maps for "
              +:+ restaurant_query city dishName);
       PlacesSearch (restaurant_query city dishName) "en"],
      Return (maps_error (exn_str e)))).
Proof.
  split.
  - intros Hkey. unfold findTopRestaurants, restaurants_try, io_try, io_bind, lift.
    by rewrite Hkey.
  - intros key Hkey Hsearch.
    rewrite (findTopRestaurants_key_ok E city dishName key Hkey).
    by rewrite Hsearch.
Qed.

Lemma maps_failures_reported_witness :
  findTopRestaurants not_found_env "Chennai" "Idli"
  = ([], Return (maps_error
                   "Must provide API key or enterprise credentials when creating client.")).
Proof.
  apply (proj1 (maps_failures_reported not_found_env "Chennai" "Idli"
                  (Exn ValueError
                     "Must provide API key or enterprise credentials when creating client."))).
  reflexivity.
Defined.

(** X10. An answer that is empty or [None], or an object whose [results]
    is missing, [null] or empty, gives the [No results found] error that
    names the dish and the city. *)
Theorem no_results_variants (E : env) (city dishName key : string)
    (places : pyval) :
  googlemaps_Client (MAPS_API_KEY E) = Return key →
  gmaps_places E (restaurant_query city dishName) "en" = Return places →
  truthy places = false ∨
  (∃ answer, places = PDict answer ∧
             truthy (default PNone (answer !! "results")) = false) →
  (findTopRestaurants E city dishName).2
  = Return (no_results_error city dishName).
Proof.
  intros Hkey Hsearch Hnone.
  rewrite (findTopRestaurants_key_ok E city dishName key Hkey). cbn [snd].
  rewrite Hsearch. cbn [obind]. unfold top_three, no_results.
  destruct Hnone as [-> | (answer & -> & Hres)]; [reflexivity |].
  destruct (truthy (PDict answer)); cbn [negb obind py_get]; [| reflexivity].
  by rewrite Hres.
Qed.

Lemma no_results_variants_witness :
  (findTopRestaurants
     (Env None (Some "AIzaSyExample") 0 (λ _, 0)
          (λ _, Raise (Exn RequestsConnectionError "unreachable"))
          (λ _ _, Return (PDict {[ "status" := PStr "ZERO_RESULTS" ]})))
     "Chennai" "Idli").2
  = Return (no_results_error "Chennai" "Idli").
Proof.
  refine (no_results_variants _ "Chennai" "Idli" "AIzaSyExample"
            (PDict {[ "status" := PStr "ZERO_RESULTS" ]}) _ _ _).
  - reflexivity.
  - reflexivity.
  - right. eexists. split; reflexivity.
Defined.

Lemma place_summary_keys (place summary : pyval) :
  place_summary place = Return summary →
  ∃ d, summary = PDict d ∧ dom d = {[ "name"; "rating"; "address" ]}.
Proof.
  unfold place_summary.
  destruct (py_get place "address" (PDict ∅)) as [addressDict | e];
    [| discriminate].
  cbn [obind]. destruct (py_get place "name" PNone) as [name | e];
    [| discriminate].
  cbn [obind]. destruct (py_get place "rating" (PStr "N/A")) as [rating | e];
    [| discriminate].
  cbn [obind].
  destruct (py_get addressDict "formatted_address" _) as [address | e];
    [| discriminate].
  cbn [obind]. intros <-%Return_inj. eexists. split; [reflexivity |].
  rewrite !dom_insert_L, dom_singleton_L. set_solver.
Qed.

Lemma collect_places_Return (items restaurants result : list pyval) :
  collect_places items restaurants = Return result →
  ∃ summaries,
    result = (restaurants ++ summaries)%list ∧
    Forall2 (λ place summary, place_summary place = Return summary)
            items summaries.
Proof.
  revert restaurants. induction items as [| place rest IH]; intros restaurants;
    simpl.
  - intros [= <-]. exists []. by rewrite app_nil_r.
  - destruct (place_summary place) as [summary | e] eqn:Hsum; [| discriminate].
    cbn [obind]. intros Hrest.
    destruct (IH _ Hrest) as (summaries & -> & Hall).
    exists (summary :: summaries). rewrite <- app_assoc. split; [done |].
    by constructor.
Qed.

(** What [top_three] returns: the [No results found] error, or the
    summaries of the items of the slice. *)
Lemma top_three_Return (city dishName : string) (places v : pyval) :
  top_three city dishName places = Return v →
  v = no_results_error city dishName ∨
  ∃ results first3 items restaurants,
    getitem_str places "results" = Return results ∧
    truthy results = true ∧
    slice_3 results = Return first3 ∧ py_iter first3 = Return items ∧
    collect_places items [] = Return restaurants ∧
    v = PDict {[ "restaurants" := PList restaurants ]}.
Proof.
  unfold top_three, no_results.
  destruct (truthy places); cbn [negb obind];
    [| intros <-%Return_inj; by left].
  destruct places as [| | | | | | answer]; try discriminate.
  cbn [py_get obind getitem_str].
  destruct (answer !! "results") as [results |] eqn:Hres; cbn [default];
    unfold id; [| intros <-%Return_inj; by left].
  destruct (truthy results) eqn:Htrue; cbn [negb];
    [| intros <-%Return_inj; by left].
  cbn [obind]. destruct (slice_3 results) as [first3 | e] eqn:Hslice;
    [| discriminate].
  cbn [obind]. destruct (py_iter first3) as [items | e] eqn:Hiter;
    [| discriminate].
  cbn [obind].
  destruct (collect_places items []) as [restaurants | e] eqn:Hcollect;
    [| discriminate].
  cbn [obind]. intros <-%Return_inj. right.
  by exists results, first3, items, restaurants.
Qed.

(** The slice of a true value has one to three items, and more than none
    of them can be summarised only when they come from a list. *)
Lemma slice_items (results first3 : pyval) (items : list pyval) :
  truthy results = true →
  slice_3 results = Return first3 → py_iter first3 = Return items →
  (∃ l, results = PList l ∧ items = take 3 l ∧ l ≠ []) ∨
  (∃ c rest, items = PStr c :: rest).
Proof.
  intros Htrue.
  destruct results as [| | | | s | l |]; try discriminate; cbn [slice_3].
  - intros <-%Return_inj. cbn [py_iter]. intros <-%Return_inj. right.
    rewrite list_ascii_of_string_of_list_ascii.
    destruct s as [| ch s]; [discriminate |]. cbn. eauto.
  - intros <-%Return_inj. cbn [py_iter]. intros <-%Return_inj. left.
    exists l. repeat split. by destruct l.
Qed.

(** X11. Whenever the call returns restaurants, the list has one to three
    items, and each item is a dictionary with exactly the keys [name],
    [rating] and [address]. *)
Theorem restaurants_one_to_three (E : env) (city dishName : string)
    (d : gmap string pyval) :
  (findTopRestaurants E city dishName).2 = Return (PDict d) →
  "restaurants" ∈ dom d →
  ∃ restaurants,
    d = {[ "restaurants" := PList restaurants ]} ∧
    (1 ≤ length restaurants ≤ 3)%nat ∧
    Forall (λ item, ∃ r, item = PDict r ∧
                         dom r = {[ "name"; "rating"; "address" ]})
           restaurants.
Proof.
  intros Hrun Hin.
  assert (∀ message, PDict d ≠ error_dict message) as Hnot_error.
  { intros message Heq%PDict_inj. subst d.
    rewrite dom_singleton_L in Hin. by apply elem_of_singleton in Hin. }
  destruct (findTopRestaurants_Return E city dishName _ Hrun)
    as [[text Htext] | [places Htop]]; [by destruct (Hnot_error _ Htext) |].
  destruct (top_three_Return _ _ _ _ Htop)
    as [Hnone | (results & first3 & items & restaurants & _ & Htrue & Hslice
                 & Hiter & Hcollect & Hd)];
    [by destruct (Hnot_error _ Hnone) |].
  apply PDict_inj in Hd as ->. exists restaurants. split; [done |].
  destruct (collect_places_Return _ _ _ Hcollect) as (summaries & -> & Hall).
  rewrite app_nil_l.
  destruct (slice_items _ _ _ Htrue Hslice Hiter)
    as [(l & -> & -> & Hne) | (c & rest & ->)].
  - split.
    + rewrite <- (Forall2_length _ _ _ Hall), length_take.
      destruct l; [done | cbn [length]; lia].
    + clear -Hall. induction Hall as [| place summary ? ? Hsum _ IH];
        constructor; [by eapply place_summary_keys | done].
  - inversion Hall as [| ? ? ? ? Hsum]; subst. discriminate Hsum.
Qed.

Lemma restaurants_one_to_three_witness :
  ∃ restaurants,
    ({[ "restaurants" := PList sample_restaurants ]} : gmap string pyval)
    = {[ "restaurants" := PList restaurants ]} ∧
    (1 ≤ length restaurants ≤ 3)%nat ∧
    Forall (λ item, ∃ r, item = PDict r ∧
                         dom r = {[ "name"; "rating"; "address" ]})
           restaurants.
Proof.
  apply (restaurants_one_to_three sample_maps_env "Chennai" "Idli").
  - vm_compute. reflexivity.
  - rewrite dom_singleton_L. by apply elem_of_singleton.
Defined.

(** With a non-empty list under [results], [top_three] is the loop over the
    first three places. *)
Lemma top_three_list (city dishName : string) (answer : gmap string pyval)
    (results : list pyval) :
  answer !! "results" = Some (PList results) → results ≠ [] →
  top_three city dishName (PDict answer)
  = (let* restaurants := collect_places (take 3 results) [] in
     Return (PDict {[ "restaurants" := PList restaurants ]})).
Proof.
  intros Hres Hne.
  assert (truthy (PDict answer) = true) as Hanswer.
  { simpl. apply negb_true_iff, bool_decide_eq_false. intros ->.
    by rewrite lookup_empty in Hres. }
  unfold top_three, no_results. rewrite Hanswer.
  cbn [negb obind py_get getitem_str]. rewrite Hres.
  cbn [default obind]. unfold id.
  assert (truthy (PList results) = true) as -> by (by destruct results).
  reflexivity.
Qed.

(** X12. Only the first three places are read: two answers whose lists
    agree on their first three places give the same result, whatever
    follows (more places, or values that are no places at all). *)
Theorem later_places_ignored (E1 E2 : env) (city dishName : string)
    (answer1 answer2 : gmap string pyval) (results1 results2 : list pyval) :
  MAPS_API_KEY E1 = MAPS_API_KEY E2 →
  gmaps_places E1 (restaurant_query city dishName) "en"
  = Return (PDict answer1) →
  gmaps_places E2 (restaurant_query city dishName) "en"
  = Return (PDict answer2) →
  answer1 !! "results" = Some (PList results1) →
  answer2 !! "results" = Some (PList results2) →
  results1 ≠ [] →
  take 3 results1 = take 3 results2 →
  findTopRestaurants E1 city dishName = findTopRestaurants E2 city dishName.
Proof.
  intros Hkeys Hs1 Hs2 Hr1 Hr2 Hne Htake.
  assert (results2 ≠ []) as Hne2.
  { intros ->. destruct results1; [done | discriminate]. }
  unfold findTopRestaurants, restaurants_try, io_try, io_bind. rewrite Hkeys.
  destruct (googlemaps_Client (MAPS_API_KEY E2)) as [key | e];
    cbn [lift emit fst snd]; [| reflexivity].
  rewrite Hs1, Hs2. cbn [fst snd app].
  rewrite (top_three_list _ _ _ _ Hr1 Hne), (top_three_list _ _ _ _ Hr2 Hne2).
  by rewrite Htake.
Qed.

Lemma later_places_ignored_witness :
  findTopRestaurants sample_maps_env "Chennai" "Idli"
  = findTopRestaurants
      (Env None (Some "AIzaSyExample") 0 (λ _, 0)
           (λ _, Raise (Exn RequestsConnectionError "unreachable"))
           (λ _ _, Return (PDict {[ "results" :=
                                      PList (take 3 sample_places ++ [PNone]) ]})))
      "Chennai" "Idli".
Proof.
  refine (later_places_ignored sample_maps_env _ "Chennai" "Idli"
            {[ "results" := PList sample_places ]}
            {[ "results" := PList (take 3 sample_places ++ [PNone]) ]}
            sample_places (take 3 sample_places ++ [PNone]) _ _ _ _ _ _ _);
    try reflexivity.
  discriminate.
Defined.

Lemma unreadable_place_raises (place : pyval) :
  unreadable_place place → ∃ e, place_summary place = Raise e.
Proof.
  unfold place_summary.
  destruct place as [| | | | | | p]; try (intros _; by eexists).
  cbn [unreadable_place py_get obind].
  destruct (p !! "address") as [a |]; [| done]. cbn [default]. unfold id.
  destruct a; try done; intros _; by eexists.
Qed.

(** X13. One place among the first three that cannot be read (a value that
    is no object, or an object whose [address] is present and is no
    object) makes the whole call return the error of the handler: no
    partial list is returned. *)
Theorem unreadable_place_fails_call (E : env) (city dishName key : string)
    (answer : gmap string pyval) (results : list pyval) (place : pyval) :
  googlemaps_Client (MAPS_API_KEY E) = Return key →
  gmaps_places E (restaurant_query city dishName) "en" = Return (PDict answer) →
  answer !! "results" = Some (PList results) →
  place ∈ take 3 results →
  unreadable_place place →
  ∃ text, (findTopRestaurants E city dishName).2 = Return (maps_error text).
Proof.
  intros Hkey Hsearch Hres Hin Hbad.
  assert (results ≠ []) as Hne.
  { intros ->. by apply elem_of_nil in Hin. }
  rewrite (findTopRestaurants_key_ok E city dishName key Hkey). cbn [snd].
  rewrite Hsearch. cbn [obind]. rewrite (top_three_list _ _ _ _ Hres Hne).
  destruct (collect_places (take 3 results) []) as [l | e] eqn:Hcollect;
    cbn [obind try_except]; [| by eexists].
  exfalso.
  destruct (collect_places_Return _ _ _ Hcollect) as (summaries & _ & Hall).
  apply list_elem_of_lookup in Hin as [i Hi].
  destruct (Forall2_lookup_l _ _ _ _ _ Hall Hi) as (summary & _ & Hsum).
  destruct (unreadable_place_raises place Hbad) as [e He]. congruence.
Qed.

Lemma unreadable_place_fails_call_witness :
  ∃ text,
    (findTopRestaurants
       (Env None (Some "AIzaSyExample") 0 (λ _, 0)
            (λ _, Raise (Exn RequestsConnectionError "unreachable"))
            (λ _ _, Return (PDict {[ "results" :=
               PList [PDict {[ "name" := PStr "Ratna Cafe" ]};
                      PDict {[ "name" := PStr "Sangeetha";
                               "address" := PStr "12 Anna Salai" ]}] ]})))
       "Chennai" "Idli").2 = Return (maps_error text).
Proof.
  refine (unreadable_place_fails_call _ "Chennai" "Idli" "AIzaSyExample"
            {[ "results" :=
                 PList [PDict {[ "name" := PStr "Ratna Cafe" ]};
                        PDict {[ "name" := PStr "Sangeetha";
                                 "address" := PStr "12 Anna Salai" ]}] ]}
            [PDict {[ "name" := PStr "Ratna Cafe" ]};
             PDict {[ "name" := PStr "Sangeetha";
                      "address" := PStr "12 Anna Salai" ]}]
            (PDict {[ "name" := PStr "Sangeetha";
                      "address" := PStr "12 Anna Salai" ]}) _ _ _ _ _).
  - reflexivity.
  - reflexivity.
  - reflexivity.
  - apply list_elem_of_further, list_elem_of_here.
  - exact I.
Defined.

(** ** getIconicDish *)

(** X14. The fallback is returned exactly on a miss: for a city of the
    table with a meal of the table the entry is returned, and it is never
    the fallback string; for every other pair (an unknown city, or a known
    city with an unknown meal) the fallback is returned. *)
Theorem fallback_iff_miss (city meal_time : string) :
  getIconicDish city meal_time = "Famous " +:+ meal_time +:+ " dish" ↔
  city ∉ cities ∨ meal_time ∉ meals.
Proof.
  split; [| apply getIconicDish_miss].
  intros Hfall.
  destruct (decide (city ∈ cities)) as [Hc | Hc]; [| by left].
  destruct (decide (meal_time ∈ meals)) as [Hm | Hm]; [| by right].
  exfalso. unfold cities in Hc. unfold meals in Hm.
  repeat (apply elem_of_cons in Hc as [-> | Hc]);
    [ .. | by apply elem_of_nil in Hc ];
    (repeat (apply elem_of_cons in Hm as [-> | Hm]);
      [ .. | by apply elem_of_nil in Hm ]);
    vm_compute in Hfall; discriminate.
Qed.

Lemma fallback_iff_miss_witness :
  getIconicDish "Chennai" "brunch" = "Famous brunch dish".
Proof.
  apply (proj2 (fallback_iff_miss "Chennai" "brunch")). right.
  unfold meals. intros Hin.
  repeat (apply elem_of_cons in Hin as [Hin | Hin]; [discriminate |]).
  by apply elem_of_nil in Hin.
Defined.

(** X15. How the two tools compose in the task: for a city outside the
    table the dish handed to [findTopRestaurants] is the fallback, so the
    search is made for [Best authentic Famous {meal} dish restaurants in
    {city}]. *)
Theorem unknown_city_query (E : env) (city meal_time key : string) :
  city ∉ cities →
  googlemaps_Client (MAPS_API_KEY E) = Return key →
  (findTopRestaurants E city (getIconicDish city meal_time)).1
  = [Print ("---> Searching Google Maps for Best authentic Famous "
            +:+ meal_time +:+ " dish restaurants in " +:+ city);
     PlacesSearch ("Best authentic Famous " +:+ meal_time
                   +:+ " dish restaurants in " +:+ city) "en"].
Proof.
  intros Hcity Hkey.
  rewrite (getIconicDish_miss city meal_time (or_introl Hcity)).
  rewrite (findTopRestaurants_key_ok E city _ key Hkey). cbn [fst].
  unfold restaurant_query, fallback_dish.
  assert ("Best authentic " +:+ ("Famous " +:+ meal_time +:+ " dish")
          +:+ " restaurants in " +:+ city
          = "Best authentic Famous " +:+ meal_time
            +:+ " dish restaurants in " +:+ city) as ->; [| reflexivity].
  change ("Best authentic Famous " +:+ meal_time +:+ " dish restaurants in " +:+ city)
    with ("Best authentic " +:+ "Famous " +:+ meal_time
          +:+ " dish" +:+ " restaurants in " +:+ city).
  f_equal. by rewrite !append_assoc.
Qed.

Lemma unknown_city_query_witness :
  (findTopRestaurants sample_maps_env "Pune" (getIconicDish "Pune" "lunch")).1
  = [Print "---> Searching Google Maps for Best authentic Famous lunch dish restaurants in Pune";
     PlacesSearch "Best authentic Famous lunch dish restaurants in Pune" "en"].
Proof.
  apply (unknown_city_query sample_maps_env "Pune" "lunch" "AIzaSyExample").
  - unfold cities. intros Hin.
    repeat (apply elem_of_cons in Hin as [Hin | Hin]; [discriminate |]).
    by apply elem_of_nil in Hin.
  - reflexivity.
Defined.

(** * The driver *)


Lemma await_crashed (get : nat → outcome execution_result) (k : nat)
    (e : exn) (turns n : nat) :
  get k = Raise e →
  (∀ j, (n ≤ j < k)%nat →
        ∃ r, get j = Return r ∧ is_terminal (result_status r) = false) →
  (n ≤ k)%nat → (k - n < turns)%nat →
  await get turns n = Crashed (S k) e.
Proof.
  intros Hk. revert n.
  induction turns as [| turns IH]; intros n Hpending Hle Hlt; [lia |].
  cbn [await]. destruct (decide (n = k)) as [-> | Hne].
  - by rewrite Hk.
  - destruct (Hpending n ltac:(lia)) as (r & -> & ->).
    apply IH; [| lia | lia]. intros j Hj. apply Hpending. lia.
Qed.

Lemma await_waiting (get : nat → outcome execution_result) (turns n : nat) :
  (∀ j, (n ≤ j < n + turns)%nat →
        ∃ r, get j = Return r ∧ is_terminal (result_status r) = false) →
  await get turns n = Waiting (n + turns).
Proof.
  revert n. induction turns as [| turns IH]; intros n Hpending; cbn [await].
  - by rewrite Nat.add_0_r.
  - destruct (Hpending n ltac:(lia)) as (r & -> & ->).
    rewrite IH; [f_equal; lia |]. intros j Hj. apply Hpending. lia.
Qed.

(** The setup neither prompts, nor submits, nor polls, nor prints an
    answer. *)
Lemma setup_actions (J : julep) (D : documents) :
  Forall (λ a, execution_action a = false) (setup J D).1.
Proof.
  unfold setup, run_bind, call, say. cbn [fst snd].
  destruct (agents_create J _ _ _) as [a | e]; cbn [fst snd app];
    [| by repeat constructor].
  destruct (tools_create J (agent_id a) (weatherToolSchema D)) as [t1 | e];
    cbn [fst snd app]; [| by repeat constructor].
  destruct (tools_create J (agent_id a) (restaurantFinderToolSchema D))
    as [t2 | e]; cbn [fst snd app]; [| by repeat constructor].
  destruct (tools_create J (agent_id a) (iconicDishToolSchema D))
    as [t3 | e]; cbn [fst snd app]; [| by repeat constructor].
  destruct (tools_list J (agent_id a)) as [ts | e]; cbn [fst snd app];
    [| by repeat constructor].
  destruct (tasks_create J (agent_id a) (taskDefinition D)) as [tk | e];
    cbn [fst snd app]; by repeat constructor.
Qed.

(** X16. When a step of the setup raises (creating the agent, registering
    one of the three tools, listing them, creating the task), the driver
    prints one line, [Error creating Tasks] with the text of the
    exception, and leaves by [exit()]: it has not prompted for a city, nor
    submitted or polled an execution, nor printed an answer. *)
Theorem setup_failure_stops_before_prompt (J : julep) (D : documents)
    (e : exn) (turns : nat) :
  Client J (JULEP_API_KEY J) = Return tt →
  (setup J D).2 = Raise e →
  ∃ actions,
    main J D turns
    = ((actions ++ [Say [PStr ("Error creating Tasks " +:+ exn_str e)]])%list,
       SystemExit) ∧
    Forall (λ a, execution_action a = false) actions.
Proof.
  intros Hclient Hsetup. unfold main. rewrite Hclient.
  pose proof (setup_actions J D) as Hactions.
  destruct (setup J D) as [t1 [tk | e']]; cbn [fst snd] in *; [discriminate |].
  injection Hsetup as ->.
  exists ([Say [PStr "---Initializing Setup---"]; NewClient (JULEP_API_KEY J)]
          ++ t1)%list.
  split; [by rewrite <- app_assoc |].
  apply Forall_app. split; [by repeat constructor | done].
Qed.

Lemma setup_failure_stops_before_prompt_witness :
  ∃ actions,
    main refusing_platform sample_documents 5
    = ((actions ++ [Say [PStr "Error creating Tasks quota exceeded"]])%list,
       SystemExit) ∧
    Forall (λ a, execution_action a = false) actions.
Proof.
  apply (setup_failure_stops_before_prompt refusing_platform sample_documents
           (Exn OtherException "quota exceeded") 5); reflexivity.
Defined.

(** X17. Once the setup is done, a failure of the prompt or of the
    submission, and a call of [executions.get] that raises while the
    earlier calls answered statuses that are not terminal, end the same
    way: one line [Error] with the text of the exception, then [exit()];
    the final answer is not printed.  A poll that raises at call [k] is
    reached after exactly [k + 1] calls. *)
Theorem run_failure_exits_without_answer (J : julep) (D : documents)
    (t1 : list action) (tk : task) (e : exn) :
  Client J (JULEP_API_KEY J) = Return tt →
  setup J D = (t1, Return tk) →
  (∀ turns, (submit J tk).2 = Raise e →
     main J D turns
     = ((opening J ++ t1 ++ (submit J tk).1 ++ [error_line e])%list,
        SystemExit)) ∧
  (∀ t2 ex k turns,
     submit J tk = (t2, Return ex) →
     executions_get J (execution_id ex) k = Raise e →
     pending_before (executions_get J (execution_id ex)) k →
     (k < turns)%nat →
     main J D turns
     = ((opening J ++ t1 ++ t2
         ++ replicate (S k) (ExecutionsGet (execution_id ex))
         ++ [error_line e])%list,
        SystemExit)).
Proof.
  intros Hclient Hsetup. split.
  - intros turns Hsubmit. unfold main. rewrite Hclient, Hsetup.
    destruct (submit J tk) as [t2 [ex | e']]; cbn [fst snd] in *;
      [discriminate |].
    by injection Hsubmit as ->.
  - intros t2 ex k turns Hsubmit Hget Hpending Hturns.
    unfold main. rewrite Hclient, Hsetup, Hsubmit. cbn zeta.
    rewrite (await_crashed _ k e turns 0 Hget); [done | | lia | lia].
    intros j Hj. apply Hpending. lia.
Qed.

Lemma run_failure_exits_without_answer_witness :
  main (sample_platform broken_polls) sample_documents 10
  = ((opening (sample_platform broken_polls)
      ++ (setup (sample_platform broken_polls) sample_documents).1
      ++ (submit (sample_platform broken_polls)
                 (Task "task-1" "Gets One Day Foodie Tour of the City")).1
      ++ replicate 3 (ExecutionsGet "exec-1")
      ++ [error_line (Exn OtherException "connection reset")])%list,
     SystemExit).
Proof.
  refine (proj2 (run_failure_exits_without_answer
                   (sample_platform broken_polls) sample_documents
                   (setup (sample_platform broken_polls) sample_documents).1
                   (Task "task-1" "Gets One Day Foodie Tour of the City")
                   (Exn OtherException "connection reset") _ _)
                _ (Execution "exec-1") 2%nat 10%nat _ _ _ _).
  - reflexivity.
  - reflexivity.
  - reflexivity.
  - reflexivity.
  - intros [| [| j]] Hj; [by eexists | by eexists | lia].
  - lia.
Defined.



(** X19. While the calls answer statuses that are neither [succeeded] nor
    [failed], the driver does nothing but call [executions.get] again:
    after [n] turns it has made exactly [n] calls, back to back, and is
    still in the loop. *)
Theorem driver_keeps_polling (J : julep) (D : documents)
    (t1 t2 : list action) (tk : task) (ex : execution) (turns : nat) :
  Client J (JULEP_API_KEY J) = Return tt →
  setup J D = (t1, Return tk) →
  submit J tk = (t2, Return ex) →
  pending_before (executions_get J (execution_id ex)) turns →
  main J D turns
  = ((opening J ++ t1 ++ t2
      ++ replicate turns (ExecutionsGet (execution_id ex)))%list,
     StillPolling).
Proof.
  intros Hclient Hsetup Hsubmit Hpending.
  unfold main. rewrite Hclient, Hsetup, Hsubmit. cbn zeta.
  rewrite (await_waiting _ turns 0); [done |].
  intros j Hj. apply Hpending. lia.
Qed.

Lemma driver_keeps_polling_witness :
  (main (sample_platform
           (λ _, Return (ExecutionResult "queued" "Execution(status='queued')")))
        sample_documents 50).2 = StillPolling.
Proof.
  erewrite (driver_keeps_polling
              (sample_platform
                 (λ _, Return (ExecutionResult "queued" "Execution(status='queued')")))
              sample_documents _ _
              (Task "task-1" "Gets One Day Foodie Tour of the City")
              (Execution "exec-1") 50).
  - reflexivity.
  - reflexivity.
  - reflexivity.
  - reflexivity.
  - intros j _. by eexists.
Defined.



